(** * pct/cmd: running helper programs under a timeout

    A shallow embedding of [src/pct/cmd/cmd.go] (package [cmd] of the
    qan-agent) and the properties its specification states about it.

    Go strings are byte sequences: they are [string] here (a list of 8-bit
    [ascii]).  An [error] interface value is [option error], [None] being
    [nil].  The process environment is a finite map from names to values.
    What the operating system, the scheduler, the library [os/exec] and the
    spawned program decide during one call of [Run] is gathered in a record
    [Oracle]; the functions
    of Go's library whose text is outside the package ([strings.TrimSpace],
    [path.Dir], [filepath.ListSeparator]) are variables of the section, so
    every theorem holds whatever they compute. *)

From stdpp Require Import base option list strings gmap.
From Stdlib Require Import ZArith Ascii.

Open Scope Z_scope.
Open Scope string_scope.

(** ** Strings *)

(** [strings.HasPrefix(s, prefix)]. *)
Definition HasPrefix (s prefix : string) : bool := String.prefix prefix s.

(** [strings.TrimPrefix(s, prefix)]: [s[len(prefix):]] when [s] starts with
    [prefix], [s] itself otherwise. *)
Definition TrimPrefix (s prefix : string) : string :=
  if HasPrefix s prefix
  then String.substring (String.length prefix)
                        (String.length s - String.length prefix) s
  else s.

(** ** Durations *)

(** [time.Duration] is a count of nanoseconds in an int64. *)
Definition Duration : Type := Z.

Module time.
Definition Nanosecond : Duration := 1.
Definition Microsecond : Duration := 1000 * Nanosecond.
Definition Millisecond : Duration := 1000 * Microsecond.
Definition Second : Duration := 1000 * Millisecond.
End time.

(** ** Errors *)

(** The error values that [Run] can meet.  The first three are the sentinels
    of the package; [exec_ErrNotFound] is the sentinel [exec.ErrNotFound];
    [exec_Error] is a [*exec.Error]; [exec_ExitError] is a [*exec.ExitError]
    (the program ran and exited unsuccessfully); [errorString] stands for
    every other error of the library (path errors, signals, ...). *)
Inductive error : Type :=
  | ErrNotFound
  | ErrTimeout
  | ErrKillProcessAfterTimeout
  | exec_ErrNotFound
  | exec_Error (Name : string) (Err : error)
  | exec_ExitError (code : Z)
  | errorString (msg : string).

(** The test of lines 140-141: [result.err] is a [*exec.Error] whose [Err]
    is [exec.ErrNotFound]. *)
Definition isExecNotFound (e : option error) : bool :=
  match e with
  | Some (exec_Error _ exec_ErrNotFound) => true
  | _ => false
  end.

(** ** Commands *)

(** [type RealCmd struct]. *)
Record RealCmd : Type := mkRealCmd {
  Timeout : Duration;
  name : string;
  args : list string;
}.

(** [type result struct]. *)
Record result : Type := mkResult {
  output : string;
  err : option error;
}.

(** An [exec.Cmd] as the package builds it.  [Name] and [Arg] are the two
    parameters of [exec.Command]: the program and the arguments it is given.
    [Env] and [Stdout] are the two fields that [Run] assigns: [Env = None]
    is the nil slice, with which the program gets the environment of the
    agent; [Stdout = None] is the nil writer, otherwise it is the file,
    named by its path, that the program writes to. *)
Record exec_Cmd : Type := mkCmd {
  Name : string;
  Arg : list string;
  Env : option (list string);
  Stdout : option string;
}.

(** [exec.Command(name, arg...)]. *)
Definition exec_Command (name : string) (arg : list string) : exec_Cmd :=
  {| Name := name; Arg := arg; Env := None; Stdout := None |}.

(** ** The world of one call *)

(** What a call does, up to the moment it ends.  The log gives the actions
    of the caller in their order; the actions of the background task run
    beside them and stand in the log at one of the places they can have.
    [EvExec] is the start of the program ([cmd.Start], which sets
    [cmd.Process]) with the environment the program receives; [EvPanic] is
    a run-time panic of the caller.  What the task does once the [select]
    has chosen (its send after a timeout, the start of the program after a
    panic of the caller) is not in the log. *)
Inductive event : Type :=
  | EvCreate (path : string) (e : option error)
  | EvClose (path : string)
  | EvGo (cmd : exec_Cmd) (redirectFile : string)
  | EvExec (cmd : exec_Cmd) (environment : list string)
  | EvSend (r : result)
  | EvRecv (r : result)
  | EvAfter (d : Duration)
  | EvKill (e : option error)
  | EvPanic (v : string).

(** The state of the agent's process: its environment and the log of what
    it has done, oldest first. *)
Record OS : Type := mkOS {
  environ : gmap string string;
  events : list event;
}.

(** [os.Getenv]: the empty string when the variable is absent. *)
Definition Getenv (w : OS) (key : string) : string :=
  default "" (environ w !! key).

(** [os.Setenv]. *)
Definition Setenv (w : OS) (key value : string) : OS :=
  {| environ := <[key := value]> (environ w); events := events w |}.

(** [os.Environ]: the entries as "key=value". *)
Definition Environ (w : OS) : list string :=
  (fun kv : string * string => kv.1 +:+ "=" +:+ kv.2) <$> map_to_list (environ w).

(** One more entry at the end of the log. *)
Definition emit (w : OS) (ev : event) : OS :=
  {| environ := environ w; events := events w ++ [ev] |}.

(** Which case of the [select] of line 125 runs, and in what state of the
    task.  [TimerFires killErr]: the timer case, when the task has started
    the program, [killErr] being what [cmd.Process.Kill()] returns.
    [TimerFiresEarly]: the timer case, when the task has not started the
    program yet, so that [cmd.Process] is still nil.  [ResultArrives]: the
    result case. *)
Inductive select_case : Type :=
  | TimerFires (killErr : option error)
  | TimerFiresEarly
  | ResultArrives.

(** What is decided outside the package during one call of [Run].
    [exec_environ] is what [os/exec] makes of the environment it is given
    for a program ([cmd.Env], or [os.Environ()] when [cmd.Env] is nil)
    before it starts the program: nothing in the library of 2016, the
    removal of all but the last entry of each key in later ones. *)
Record Oracle : Type := mkOracle {
  os_Executable : string * option error;
  os_Args0 : string;
  os_Create : string -> option error;
  exec_environ : list string -> list string;
  CombinedOutput : exec_Cmd -> list string -> string * option error;
  cmd_Run : exec_Cmd -> list string -> option error;
  selected : select_case;
}.

(** The channel [resultChan]: one slot. *)
Definition chan : Type := option result.

(** The non-blocking send of lines 162-165. *)
Definition trySend (ch : chan) (r : result) : chan :=
  match ch with
  | None => Some r
  | Some _ => ch
  end.

(** ** The package *)

Section Package.

(** [strings.TrimSpace], [path.Dir] and [string(filepath.ListSeparator)]. *)
Variable TrimSpace : string -> string.
Variable Dir : string -> string.
Variable ListSeparator : string.

(** Lines 99-109 of [Run]: the loop over [c.args].  [rest] is what the
    [range] has still to visit; [args] and [outFilename] are the two
    variables of the same names. *)
Fixpoint scanArgs (rest args : list string) (outFilename : string)
  : list string * string :=
  match rest with
  | [] => (args, outFilename)
  | arg :: rest' =>
      if HasPrefix arg ">"
      then (args, TrimSpace (TrimPrefix arg ">"))
      else scanArgs rest' (args ++ [arg]) outFilename
  end.

(** Lines 88-94 of [Run]. *)
Definition setPath (o : Oracle) (osPath : string) (w : OS) : OS :=
  let '(binfile, err) := os_Executable o in
  match err with
  | Some _ =>
      let basepath := Dir binfile in
      Setenv w "PATH" (basepath +:+ "/bin/" +:+ ListSeparator +:+ osPath)
  | None =>
      let basepath := Dir (os_Args0 o) in
      Setenv w "PATH" (basepath +:+ ListSeparator +:+ osPath)
  end.

(** Lines 119-122 of [Run]. *)
Definition setHome (cmd : exec_Cmd) (w : OS) : exec_Cmd :=
  if decide (Getenv w "HOME" = "")
  then {| Name := Name cmd; Arg := Arg cmd;
          Env := Some (Environ w ++ ["HOME=/root"])%list;
          Stdout := Stdout cmd |}
  else cmd.

(** The environment that [os/exec] starts from for [cmd]: [cmd.Env], or
    the environment of the agent when [cmd.Env] is nil. *)
Definition givenEnv (cmd : exec_Cmd) (w : OS) : list string :=
  match Env cmd with
  | Some e => e
  | None => Environ w
  end.

(** The environment a program started from [cmd] receives. *)
Definition childEnv (o : Oracle) (cmd : exec_Cmd) (w : OS) : list string :=
  exec_environ o (givenEnv cmd w).

(** The background task of [runCmd], lines 153-161: the outcome it has
    when the program has ended. *)
Definition outcome (o : Oracle) (cmd : exec_Cmd) (redirectFile : string)
    (environment : list string) : result :=
  if decide (redirectFile = "")
  then let '(out, e) := CombinedOutput o cmd environment in
       {| output := out; err := e |}
  else {| output := redirectFile; err := cmd_Run o cmd environment |}.

(** The task starts the program ... *)
Definition taskStart (o : Oracle) (cmd : exec_Cmd) (w : OS) : OS :=
  emit w (EvExec cmd (childEnv o cmd w)).

(** ... and, when the program has ended, offers the outcome to the channel
    (lines 162-165). *)
Definition taskFinish (o : Oracle) (cmd : exec_Cmd) (redirectFile : string)
    (ch : chan) (w : OS) : chan * OS :=
  let r := outcome o cmd redirectFile (childEnv o cmd w) in
  (trySend ch r, emit w (EvSend r)).

(** [runCmd], lines 148-152 and 166-167: a new channel, the task
    launched. *)
Definition runCmd (cmd : exec_Cmd) (redirectFile : string) (w : OS)
  : chan * OS :=
  (None, emit w (EvGo cmd redirectFile)).

(** The timer case of the [select], lines 126-138. *)
Definition onTimeout (killErr : option error) (w : OS)
  : (string * option error) * OS :=
  let w := emit w (EvKill killErr) in
  match killErr with
  | Some _ => (("", Some ErrKillProcessAfterTimeout), w)
  | None => (("", Some ErrTimeout), w)
  end.

(** The result case of the [select], lines 139-144. *)
Definition onResult (r : result) (w : OS) : (string * option error) * OS :=
  let w := emit w (EvRecv r) in
  if isExecNotFound (err r)
  then (("", Some ErrNotFound), w)
  else ((output r, err r), w).

(** Line 127 when [cmd.Process] is nil: the call of [Kill] through the nil
    pointer panics.  The named results [output] and [err] hold the empty
    string and nil at that moment; the deferred calls of [Run] run, and the
    panic goes on to the caller of [Run], which gets no result. *)
Definition onNilProcess (w : OS) : (string * option error) * OS :=
  (("", None),
   emit w (EvPanic "invalid memory address or nil pointer dereference")).

(** Lines 124-145 of [Run].  The timer case finds the program started, and
    kills it, or not started, and panics.  The result case wants an
    outcome in the channel, so the task has started the program, has seen
    it end and has sent; on an empty channel the [select] is left to the
    timer. *)
Definition supervise (c : RealCmd) (o : Oracle) (cmd : exec_Cmd)
    (outFilename : string) (w : OS) : (string * option error) * OS :=
  let '(resultChan, w) := runCmd cmd outFilename w in
  let w := emit w (EvAfter (Timeout c)) in
  match selected o with
  | TimerFires killErr =>
      let w := taskStart o cmd w in
      onTimeout killErr w
  | TimerFiresEarly => onNilProcess w
  | ResultArrives =>
      let w := taskStart o cmd w in
      let '(resultChan, w) := taskFinish o cmd outFilename resultChan w in
      match resultChan with
      | Some r => onResult r w
      | None => onTimeout None w
      end
  end.

(** [func (c *RealCmd) Run() (output string, err error)].  The two
    deferred calls run when the function returns or panics, last one
    first: the file is closed, then PATH is put back.  The pair is what
    [Run] returns; when the log of the call has an [EvPanic], [Run] does
    not return and the pair is what the named results hold. *)
Definition Run (c : RealCmd) (o : Oracle) (w : OS)
  : (string * option error) * OS :=
  let osPath := Getenv w "PATH" in
  let restore (w : OS) := Setenv w "PATH" osPath in
  let w := setPath o osPath w in
  let '(args, outFilename) := scanArgs (args c) [] "" in
  let cmd := exec_Command (name c) args in
  if decide (outFilename = "")
  then
    let cmd := setHome cmd w in
    let '(r, w) := supervise c o cmd outFilename w in
    (r, restore w)
  else
    let e := os_Create o outFilename in
    let w := emit w (EvCreate outFilename e) in
    match e with
    | Some _ => (("", e), restore w)
    | None =>
        let cmd := {| Name := Name cmd; Arg := Arg cmd; Env := Env cmd;
                      Stdout := Some outFilename |} in
        let cmd := setHome cmd w in
        let '(r, w) := supervise c o cmd outFilename w in
        (r, restore (emit w (EvClose outFilename)))
    end.

End Package.

(** The events that one call of [Run] adds to the log. *)
Definition performed (TrimSpace Dir : string -> string) (ListSeparator : string)
    (c : RealCmd) (o : Oracle) (w : OS) : list event :=
  drop (length (events w)) (events (Run TrimSpace Dir ListSeparator c o w).2).

(** [Run] gets as far as the [select]: no file is asked for, or the file
    could be created. *)
Definition reachesSelect (TrimSpace : string -> string) (c : RealCmd)
    (o : Oracle) : Prop :=
  let outFilename := (scanArgs TrimSpace (args c) [] "").2 in
  outFilename = "" \/ os_Create o outFilename = None.

(** ** Package variables and constructors *)

(** The state of the package: the variable [DefaultTimeout] and the
    [RealCmd] structures allocated so far.  A [*RealCmd] is an index in
    [heap]. *)
Record Package : Type := mkPackage {
  DefaultTimeout : Duration;
  heap : list RealCmd;
}.

(** The initial values of the package variables (line 31). *)
Definition init : Package :=
  {| DefaultTimeout := 60 * time.Second; heap := [] |}.

(** [func NewRealCmd(name string, args ...string) *RealCmd].  The structure
    gets the value of [DefaultTimeout] at this moment.  [args] is the slice
    of the caller, not a copy: the heap holds its value at construction,
    and what the caller may write through the slice later is not
    modelled. *)
Definition NewRealCmd (name : string) (args : list string) (p : Package)
  : nat * Package :=
  (length (heap p),
   {| DefaultTimeout := DefaultTimeout p;
      heap := (heap p ++ [ {| Timeout := DefaultTimeout p;
                              name := name;
                              args := args |} ])%list |}).

(** The capability of building commands ([type CmdFactory interface]). *)
Class CmdFactory (F : Type) : Type :=
  Make : F -> string -> list string -> Package -> nat * Package.

(** [type RealCmdFactory struct {}]. *)
Inductive RealCmdFactory : Type := mkRealCmdFactory.

(** [func (f *RealCmdFactory) Make(name string, args ...string) Cmd]. *)
#[global] Instance RealCmdFactory_Make : CmdFactory RealCmdFactory :=
  fun _ name args => NewRealCmd name args.

(** The assignment [c.Timeout = d] through the pointer [c]. *)
Definition setTimeout (c : nat) (d : Duration) (p : Package) : Package :=
  {| DefaultTimeout := DefaultTimeout p;
     heap := alter (fun r => {| Timeout := d; name := name r; args := args r |})
                   c (heap p) |}.

(** The assignment [cmd.DefaultTimeout = d] by a client of the package:
    the variable is exported. *)
Definition setDefaultTimeout (d : Duration) (p : Package) : Package :=
  {| DefaultTimeout := d; heap := heap p |}.

(** ** Instances of the library functions, to run the model

    [asciiTrimSpace] strips the six white-space bytes of ASCII from both
    ends, which is what [strings.TrimSpace] does on ASCII text; [slashDir]
    is [path.Dir] on paths that are already clean; [lastWins] is the rule of
    the later [os/exec] on entries of the form key=value: of the entries of
    one key the last one stays. *)
Module Sample.

(** The text before the first "=" of an entry. *)
Fixpoint keyOf (kv : string) : string :=
  match kv with
  | String c rest =>
      if Ascii.eqb c "="%char then EmptyString else String c (keyOf rest)
  | EmptyString => EmptyString
  end.

Fixpoint lastWins (env : list string) : list string :=
  match env with
  | [] => []
  | kv :: rest =>
      if existsb (fun kv' => String.eqb (keyOf kv') (keyOf kv)) rest
      then lastWins rest
      else kv :: lastWins rest
  end.

Definition isSpace (c : Ascii.ascii) : bool :=
  let n := Ascii.N_of_ascii c in
  (N.eqb n 9 || N.eqb n 10 || N.eqb n 11 || N.eqb n 12 || N.eqb n 13
   || N.eqb n 32)%bool.

Fixpoint trimLeft (s : string) : string :=
  match s with
  | String c s' => if isSpace c then trimLeft s' else s
  | EmptyString => EmptyString
  end.

Fixpoint trimRight (s : string) : string :=
  match s with
  | String c s' =>
      match trimRight s' with
      | EmptyString => if isSpace c then EmptyString else String c EmptyString
      | t => String c t
      end
  | EmptyString => EmptyString
  end.

Definition asciiTrimSpace (s : string) : string := trimRight (trimLeft s).

(** The text before the last slash of [s], if [s] has a slash. *)
Fixpoint beforeLastSlash (s : string) : option string :=
  match s with
  | String c s' =>
      match beforeLastSlash s' with
      | Some d => Some (String c d)
      | None => if Ascii.eqb c "/"%char then Some EmptyString else None
      end
  | EmptyString => None
  end.

Definition slashDir (s : string) : string :=
  match beforeLastSlash s with
  | None => "."
  | Some EmptyString => "/"
  | Some d => d
  end.

Definition run : RealCmd -> Oracle -> OS -> (string * option error) * OS :=
  Run asciiTrimSpace slashDir ":".

Definition did : RealCmd -> Oracle -> OS -> list event :=
  performed asciiTrimSpace slashDir ":".

(** An agent installed in /usr/local/percona/qan-agent, started by name,
    with a two-entry environment that has no HOME. *)
Definition agentEnv : OS :=
  {| environ := {[ "PATH" := "/usr/bin" ]}; events := [] |}.

(** The same agent with HOME set to nothing. *)
Definition homelessEnv : OS :=
  {| environ := {[ "PATH" := "/usr/bin"; "HOME" := "" ]}; events := [] |}.

(** Every file can be created; every program prints its arguments and a
    newline as echo does, succeeds, and ends before the timer. *)
Definition quiet : Oracle :=
  {| os_Executable :=
       ("/usr/local/percona/qan-agent/bin/percona-qan-agent", None);
     os_Args0 := "percona-qan-agent";
     os_Create := fun _ => None;
     exec_environ := lastWins;
     CombinedOutput := fun cmd _ =>
       (String.concat " " (Arg cmd) +:+ String "010"%char "", None);
     cmd_Run := fun _ _ => None;
     selected := ResultArrives |}.

(** The program does not end in time and can be killed. *)
Definition stuck : Oracle :=
  {| os_Executable := os_Executable quiet;
     os_Args0 := os_Args0 quiet;
     os_Create := os_Create quiet;
     exec_environ := exec_environ quiet;
     CombinedOutput := CombinedOutput quiet;
     cmd_Run := cmd_Run quiet;
     selected := TimerFires None |}.

(** No file can be created. *)
Definition readonly : Oracle :=
  {| os_Executable := os_Executable quiet;
     os_Args0 := os_Args0 quiet;
     os_Create := fun _ => Some (errorString "permission denied");
     exec_environ := exec_environ quiet;
     CombinedOutput := CombinedOutput quiet;
     cmd_Run := cmd_Run quiet;
     selected := selected quiet |}.

(** The path of the executable cannot be found. *)
Definition lost : Oracle :=
  {| os_Executable := ("", Some (errorString "readlink /proc/self/exe: no such file"));
     os_Args0 := "/usr/local/percona/qan-agent/bin/percona-qan-agent";
     os_Create := os_Create quiet;
     exec_environ := exec_environ quiet;
     CombinedOutput := CombinedOutput quiet;
     cmd_Run := cmd_Run quiet;
     selected := selected quiet |}.

(** The program does not end in time and the kill fails. *)
Definition unkillable : Oracle :=
  {| os_Executable := os_Executable quiet;
     os_Args0 := os_Args0 quiet;
     os_Create := os_Create quiet;
     exec_environ := exec_environ quiet;
     CombinedOutput := CombinedOutput quiet;
     cmd_Run := cmd_Run quiet;
     selected := TimerFires (Some (errorString "operation not permitted")) |}.

(** The timer fires before the task has started the program. *)
Definition hasty : Oracle :=
  {| os_Executable := os_Executable quiet;
     os_Args0 := os_Args0 quiet;
     os_Create := os_Create quiet;
     exec_environ := exec_environ quiet;
     CombinedOutput := CombinedOutput quiet;
     cmd_Run := cmd_Run quiet;
     selected := TimerFiresEarly |}.

(** No program of the name asked for is on the search path. *)
Definition absent : Oracle :=
  {| os_Executable := os_Executable quiet;
     os_Args0 := os_Args0 quiet;
     os_Create := os_Create quiet;
     exec_environ := exec_environ quiet;
     CombinedOutput := fun cmd _ => ("", Some (exec_Error (Name cmd) exec_ErrNotFound));
     cmd_Run := fun cmd _ => Some (exec_Error (Name cmd) exec_ErrNotFound);
     selected := ResultArrives |}.

(** The program prints "boom" and exits with status 3. *)
Definition failing : Oracle :=
  {| os_Executable := os_Executable quiet;
     os_Args0 := os_Args0 quiet;
     os_Create := os_Create quiet;
     exec_environ := exec_environ quiet;
     CombinedOutput := fun _ _ => ("boom", Some (exec_ExitError 3));
     cmd_Run := fun _ _ => Some (exec_ExitError 3);
     selected := ResultArrives |}.

Definition nonexistent : RealCmd :=
  {| Timeout := 60 * time.Second; name := "nonexistent-binary-xyz"; args := [] |}.

Definition echo : RealCmd :=
  {| Timeout := 60 * time.Second; name := "echo"; args := ["hello"] |}.

Definition echoTo : RealCmd :=
  {| Timeout := 60 * time.Second; name := "echo";
     args := ["hi"; "> /tmp/out.txt"] |}.

Definition echoBare : RealCmd :=
  {| Timeout := 60 * time.Second; name := "echo";
     args := ["hi"; ">"; "more"] |}.

Definition sleep5 : RealCmd :=
  {| Timeout := 100 * time.Millisecond; name := "sleep"; args := ["5"] |}.

(** The environments given to the programs that a log shows started. *)
Definition execEnvs (log : list event) : list (list string) :=
  omap (fun ev => match ev with EvExec _ env => Some env | _ => None end) log.

End Sample.

(** * Properties *)

(** ** The environment *)

Lemma Getenv_Setenv_eq w k v : Getenv (Setenv w k v) k = v.
Proof. unfold Getenv, Setenv; simpl. by rewrite lookup_insert_eq. Qed.

Lemma Getenv_Setenv_ne w k k' v : k ≠ k' -> Getenv (Setenv w k v) k' = Getenv w k'.
Proof. intros H. unfold Getenv, Setenv; simpl. by rewrite lookup_insert_ne. Qed.

Lemma Getenv_emit w ev k : Getenv (emit w ev) k = Getenv w k.
Proof. reflexivity. Qed.

Lemma Environ_emit w ev : Environ (emit w ev) = Environ w.
Proof. reflexivity. Qed.

Lemma events_Setenv w k v : events (Setenv w k v) = events w.
Proof. reflexivity. Qed.

Lemma events_emit w ev : events (emit w ev) = (events w ++ [ev])%list.
Proof. reflexivity. Qed.

(** Setting a variable and then putting back the value it had leaves a
    variable that was present exactly as it was. *)
Lemma Setenv_restore w k v old :
  environ w !! k = Some old ->
  environ (Setenv (Setenv w k v) k old) = environ w.
Proof.
  intros H. unfold Setenv; simpl.
  rewrite insert_insert_eq. by apply insert_id.
Qed.

Section Facts.

Variable TrimSpace : string -> string.
Variable Dir : string -> string.
Variable ListSeparator : string.

#[local] Abbreviation scanArgs := (scanArgs TrimSpace).
#[local] Abbreviation setPath := (setPath Dir ListSeparator).
#[local] Abbreviation Run := (Run TrimSpace Dir ListSeparator).
#[local] Abbreviation performed := (performed TrimSpace Dir ListSeparator).
#[local] Abbreviation reachesSelect := (reachesSelect TrimSpace).

(** *** The loop over the arguments *)

(** Without a marker the loop appends everything. *)
Lemma scanArgs_none rest : forall acc f,
  (forall a, a ∈ rest -> HasPrefix a ">" = false) ->
  scanArgs rest acc f = ((acc ++ rest)%list, f).
Proof.
  induction rest as [|a rest IH]; intros acc f Hno; simpl.
  - by rewrite app_nil_r.
  - rewrite (Hno a) by left.
    rewrite IH.
    + by rewrite <- app_assoc.
    + intros b Hb. apply Hno. by right.
Qed.

(** With a first marker at [i] the loop stops there. *)
Lemma scanArgs_first rest : forall acc f i a,
  rest !! i = Some a ->
  HasPrefix a ">" = true ->
  (forall j b, (j < i)%nat -> rest !! j = Some b -> HasPrefix b ">" = false) ->
  scanArgs rest acc f = ((acc ++ take i rest)%list, TrimSpace (TrimPrefix a ">")).
Proof.
  induction rest as [|x rest IH]; intros acc f i a Hi Ha Hbefore.
  - by rewrite lookup_nil in Hi.
  - destruct i as [|i]; simpl in *.
    + injection Hi as ->. rewrite Ha. by rewrite app_nil_r.
    + rewrite (Hbefore 0%nat x); [| lia | done].
      rewrite (IH (acc ++ [x])%list f i a Hi Ha).
      * by rewrite <- app_assoc.
      * intros j b Hj Hb. apply (Hbefore (S j) b); [lia | done].
Qed.

(** The file name is empty or is the trimmed rest of some argument. *)
Lemma scanArgs_outFilename rest : forall acc f,
  (scanArgs rest acc f).2 = f \/
  exists a, a ∈ rest /\ HasPrefix a ">" = true /\
            (scanArgs rest acc f).2 = TrimSpace (TrimPrefix a ">").
Proof.
  induction rest as [|x rest IH]; intros acc f; simpl; [by left|].
  destruct (HasPrefix x ">") eqn:Hx.
  - right. exists x. split; [by left | done].
  - destruct (IH (acc ++ [x])%list f) as [H | (a & Ha & Hp & H)]; [by left|].
    right. exists a. split; [by right | done].
Qed.

(** *** The select *)

Lemma setPath_events o osPath w : events (setPath o osPath w) = events w.
Proof. unfold setPath. by destruct (os_Executable o) as [b [e|]]. Qed.

Lemma setPath_other o osPath w k :
  k ≠ "PATH" -> environ (setPath o osPath w) !! k = environ w !! k.
Proof.
  intros Hk. unfold setPath.
  destruct (os_Executable o) as [b [e|]]; simpl; by rewrite lookup_insert_ne.
Qed.

Lemma onTimeout_environ k w : environ (onTimeout k w).2 = environ w.
Proof. by destruct k. Qed.

Lemma onResult_environ r w : environ (onResult r w).2 = environ w.
Proof. unfold onResult. by destruct (isExecNotFound (err r)). Qed.

Lemma supervise_environ c o cmd f w :
  environ (supervise c o cmd f w).2 = environ w.
Proof.
  unfold supervise, runCmd, taskStart, taskFinish, trySend, onNilProcess.
  destruct (selected o) as [k| |].
  - by rewrite onTimeout_environ.
  - done.
  - by rewrite onResult_environ.
Qed.

(** The log of the select: the task is launched and the timer armed; then
    the program is started and killed, or the caller panics, or the
    program is started and its outcome sent and received. *)
Lemma supervise_events c o cmd f w :
  events (supervise c o cmd f w).2 =
  (events w ++
   [EvGo cmd f; EvAfter (Timeout c)] ++
   match selected o with
   | TimerFires k => [EvExec cmd (childEnv o cmd w); EvKill k]
   | TimerFiresEarly =>
       [EvPanic "invalid memory address or nil pointer dereference"]
   | ResultArrives =>
       let r := outcome o cmd f (childEnv o cmd w) in
       [EvExec cmd (childEnv o cmd w); EvSend r; EvRecv r]
   end)%list.
Proof.
  unfold supervise, runCmd, taskStart, taskFinish, trySend, onNilProcess.
  destruct (selected o) as [k| |]; simpl.
  - destruct k; simpl; by rewrite <- !app_assoc.
  - by rewrite <- !app_assoc.
  - unfold onResult.
    destruct (isExecNotFound _); simpl; by rewrite <- !app_assoc.
Qed.

Lemma supervise_result c o cmd f w :
  (supervise c o cmd f w).1 =
  match selected o with
  | TimerFires (Some _) => ("", Some ErrKillProcessAfterTimeout)
  | TimerFires None => ("", Some ErrTimeout)
  | TimerFiresEarly => ("", None)
  | ResultArrives =>
      let r := outcome o cmd f (childEnv o cmd w) in
      if isExecNotFound (err r) then ("", Some ErrNotFound)
      else (output r, err r)
  end.
Proof.
  unfold supervise, runCmd, taskStart, taskFinish, trySend, onNilProcess.
  destruct (selected o) as [[e|]| |]; simpl; try done.
  unfold onResult.
  by destruct (isExecNotFound _).
Qed.

(** *** The three ways through [Run] *)

Lemma setHome_emit cmd w ev : setHome cmd (emit w ev) = setHome cmd w.
Proof. reflexivity. Qed.

Lemma childEnv_emit o cmd w ev :
  childEnv o cmd (emit w ev) = childEnv o cmd w.
Proof. reflexivity. Qed.

Lemma setHome_fields cmd w :
  Name (setHome cmd w) = Name cmd /\ Arg (setHome cmd w) = Arg cmd /\
  Stdout (setHome cmd w) = Stdout cmd.
Proof. unfold setHome. by case_decide. Qed.

(** No file is asked for. *)
Lemma Run_no_file c o w :
  (scanArgs (args c) [] "").2 = "" ->
  Run c o w =
    let w1 := setPath o (Getenv w "PATH") w in
    let cmd := setHome (exec_Command (name c) (scanArgs (args c) [] "").1) w1 in
    let s := supervise c o cmd "" w1 in
    (s.1, Setenv s.2 "PATH" (Getenv w "PATH")).
Proof.
  intros Hf. unfold Run.
  destruct (scanArgs (args c) [] "") as [l f]; simpl in *; subst f.
  case_decide; [|done].
  by destruct (supervise _ _ _ _ _).
Qed.

(** A file is asked for and cannot be created. *)
Lemma Run_create_fails c o w e :
  (scanArgs (args c) [] "").2 ≠ "" ->
  os_Create o (scanArgs (args c) [] "").2 = Some e ->
  Run c o w =
    let f := (scanArgs (args c) [] "").2 in
    let w1 := setPath o (Getenv w "PATH") w in
    (("", Some e), Setenv (emit w1 (EvCreate f (Some e))) "PATH" (Getenv w "PATH")).
Proof.
  intros Hf He. unfold Run.
  destruct (scanArgs (args c) [] "") as [l f]; simpl in *.
  case_decide; [done|]. by rewrite He.
Qed.

(** A file is asked for and is created. *)
Lemma Run_create_ok c o w :
  (scanArgs (args c) [] "").2 ≠ "" ->
  os_Create o (scanArgs (args c) [] "").2 = None ->
  Run c o w =
    let l := (scanArgs (args c) [] "").1 in
    let f := (scanArgs (args c) [] "").2 in
    let w1 := emit (setPath o (Getenv w "PATH") w) (EvCreate f None) in
    let cmd := setHome {| Name := name c; Arg := l; Env := None;
                          Stdout := Some f |} w1 in
    let s := supervise c o cmd f w1 in
    (s.1, Setenv (emit s.2 (EvClose f)) "PATH" (Getenv w "PATH")).
Proof.
  intros Hf He. unfold Run.
  destruct (scanArgs (args c) [] "") as [l f]; simpl in *.
  case_decide; [done|]. rewrite He.
  by destruct (supervise _ _ _ _ _).
Qed.

(** What one call adds to the log, by cases. *)
Lemma performed_shape c o w :
  let l := (scanArgs (args c) [] "").1 in
  let f := (scanArgs (args c) [] "").2 in
  let w1 := setPath o (Getenv w "PATH") w in
  let cmd := setHome {| Name := name c; Arg := l; Env := None;
                        Stdout := if decide (f = "") then None else Some f |}
                     w1 in
  let env := childEnv o cmd w1 in
  let r := outcome o cmd f env in
  let body :=
    ([EvGo cmd f; EvAfter (Timeout c)] ++
     match selected o with
     | TimerFires k => [EvExec cmd env; EvKill k]
     | TimerFiresEarly =>
         [EvPanic "invalid memory address or nil pointer dereference"]
     | ResultArrives => [EvExec cmd env; EvSend r; EvRecv r]
     end)%list in
  performed c o w =
    if decide (f = "") then body
    else match os_Create o f with
         | Some e => [EvCreate f (Some e)]
         | None => ([EvCreate f None] ++ body ++ [EvClose f])%list
         end.
Proof.
  intros l f w1 cmd env r body. unfold performed.
  subst body r env cmd. case_decide as Hf.
  - rewrite (Run_no_file c o w Hf). cbv zeta. cbn [snd].
    rewrite events_Setenv, supervise_events, setPath_events.
    rewrite drop_app_length. fold f. rewrite Hf. reflexivity.
  - destruct (os_Create o f) as [e|] eqn:He.
    + rewrite (Run_create_fails c o w e Hf He). cbv zeta. cbn [snd].
      rewrite events_Setenv, events_emit, setPath_events.
      by rewrite drop_app_length.
    + rewrite (Run_create_ok c o w Hf He). cbv zeta. cbn [snd].
      rewrite events_Setenv, events_emit, supervise_events, events_emit.
      rewrite setPath_events, <- !app_assoc, drop_app_length.
      reflexivity.
Qed.

(** What one call returns, by cases. *)
Lemma Run_result c o w :
  let l := (scanArgs (args c) [] "").1 in
  let f := (scanArgs (args c) [] "").2 in
  let w1 := setPath o (Getenv w "PATH") w in
  let cmd := setHome {| Name := name c; Arg := l; Env := None;
                        Stdout := if decide (f = "") then None else Some f |}
                     w1 in
  let r := outcome o cmd f (childEnv o cmd w1) in
  let res :=
    match selected o with
    | TimerFires (Some _) => ("", Some ErrKillProcessAfterTimeout)
    | TimerFires None => ("", Some ErrTimeout)
    | TimerFiresEarly => ("", None)
    | ResultArrives =>
        if isExecNotFound (err r) then ("", Some ErrNotFound)
        else (output r, err r)
    end in
  (Run c o w).1 =
    if decide (f = "") then res
    else match os_Create o f with
         | Some e => ("", Some e)
         | None => res
         end.
Proof.
  intros l f w1 cmd r res. subst res r cmd. case_decide as Hf.
  - rewrite (Run_no_file c o w Hf). cbv zeta. cbn [fst].
    rewrite supervise_result. fold f. rewrite Hf. reflexivity.
  - destruct (os_Create o f) as [e|] eqn:He.
    + by rewrite (Run_create_fails c o w e Hf He).
    + rewrite (Run_create_ok c o w Hf He). cbv zeta. cbn [fst].
      by rewrite supervise_result.
Qed.

(** The environment after the call: PATH has been assigned the value read
    at entry, nothing else has changed. *)
Lemma Run_environ c o w :
  environ (Run c o w).2 = <["PATH" := Getenv w "PATH"]> (environ w).
Proof.
  assert (Hset : forall w', environ w' = environ (setPath o (Getenv w "PATH") w) ->
            environ (Setenv w' "PATH" (Getenv w "PATH"))
            = <["PATH" := Getenv w "PATH"]> (environ w)).
  { intros w' Hw. unfold Setenv at 1. simpl. rewrite Hw.
    unfold setPath, Setenv.
    destruct (os_Executable o) as [b [e|]]; simpl; by rewrite insert_insert_eq. }
  destruct (decide ((scanArgs (args c) [] "").2 = "")) as [Hf|Hf].
  - rewrite (Run_no_file c o w Hf). cbv zeta. cbn [snd].
    apply Hset. by rewrite supervise_environ.
  - destruct (os_Create o (scanArgs (args c) [] "").2) as [e|] eqn:He.
    + rewrite (Run_create_fails c o w e Hf He). cbv zeta. cbn [snd].
      by apply Hset.
    + rewrite (Run_create_ok c o w Hf He). cbv zeta. cbn [snd].
      apply Hset. simpl. by rewrite supervise_environ.
Qed.

(** Membership in the short explicit lists of [performed_shape]. *)
Ltac in_log :=
  intros;
  repeat (rewrite ?elem_of_app, ?elem_of_cons, ?elem_of_nil in * );
  intuition (discriminate || congruence || eauto).

(** The task that a call launches is for the command built from the
    scanned arguments, with the scanned file name; the standard output of
    the command is the file exactly when one is asked for. *)
Lemma performed_go c o w cmd f :
  EvGo cmd f ∈ performed c o w ->
  f = (scanArgs (args c) [] "").2 /\
  Name cmd = name c /\
  Arg cmd = (scanArgs (args c) [] "").1 /\
  Stdout cmd = (if decide ((scanArgs (args c) [] "").2 = "") then None
                else Some (scanArgs (args c) [] "").2) /\
  cmd = setHome {| Name := name c; Arg := (scanArgs (args c) [] "").1;
                   Env := None; Stdout := Stdout cmd |}
                (setPath o (Getenv w "PATH") w).
Proof.
  pose proof (performed_shape c o w) as Hs. cbv zeta in Hs. rewrite Hs.
  set (cmd0 := setHome _ _).
  destruct (setHome_fields
              {| Name := name c; Arg := (scanArgs (args c) [] "").1; Env := None;
                 Stdout := if decide ((scanArgs (args c) [] "").2 = "") then None
                           else Some (scanArgs (args c) [] "").2 |}
              (setPath o (Getenv w "PATH") w)) as (Hn & Ha & Ho).
  fold cmd0 in Hn, Ha, Ho. simpl in Hn, Ha, Ho.
  assert (Hcmd0 : EvGo cmd f = EvGo cmd0 (scanArgs (args c) [] "").2 ->
          f = (scanArgs (args c) [] "").2 /\
          Name cmd = name c /\
          Arg cmd = (scanArgs (args c) [] "").1 /\
          Stdout cmd = (if decide ((scanArgs (args c) [] "").2 = "") then None
                        else Some (scanArgs (args c) [] "").2) /\
          cmd = setHome {| Name := name c; Arg := (scanArgs (args c) [] "").1;
                           Env := None; Stdout := Stdout cmd |}
                        (setPath o (Getenv w "PATH") w)).
  { intros [= -> ->]. rewrite Ho. done. }
  case_decide as Hf.
  - destruct (selected o); in_log.
  - destruct (os_Create o _); [in_log|].
    destruct (selected o); in_log.
Qed.

(** Every program that a call starts is the command of the task that the
    call launched, and receives what [os/exec] makes of the environment
    given for it. *)
Lemma performed_exec_go c o w cmd env :
  EvExec cmd env ∈ performed c o w ->
  EvGo cmd (scanArgs (args c) [] "").2 ∈ performed c o w /\
  env = childEnv o cmd (setPath o (Getenv w "PATH") w).
Proof.
  pose proof (performed_shape c o w) as Hs. cbv zeta in Hs. rewrite Hs.
  set (cmd0 := setHome _ _).
  assert (Hcmd0 : forall l,
    EvExec cmd env = EvExec cmd0 (childEnv o cmd0 (setPath o (Getenv w "PATH") w)) ->
    (EvGo cmd (scanArgs (args c) [] "").2 = EvGo cmd0 (scanArgs (args c) [] "").2
     \/ l) /\
    env = childEnv o cmd (setPath o (Getenv w "PATH") w)).
  { intros l [= -> ->]. split; [by left | done]. }
  case_decide as Hf.
  - destruct (selected o); in_log.
  - destruct (os_Create o _); [in_log|].
    destruct (selected o); in_log.
Qed.

Lemma performed_exec c o w cmd env :
  EvExec cmd env ∈ performed c o w ->
  Name cmd = name c /\
  Arg cmd = (scanArgs (args c) [] "").1 /\
  Stdout cmd = (if decide ((scanArgs (args c) [] "").2 = "") then None
                else Some (scanArgs (args c) [] "").2) /\
  cmd = setHome {| Name := name c; Arg := (scanArgs (args c) [] "").1;
                   Env := None; Stdout := Stdout cmd |}
                (setPath o (Getenv w "PATH") w) /\
  env = childEnv o cmd (setPath o (Getenv w "PATH") w).
Proof.
  intros Hin. destruct (performed_exec_go c o w cmd env Hin) as [Hgo Henv].
  destruct (performed_go c o w cmd _ Hgo) as (_ & Hn & Ha & Ho & Hcmd).
  done.
Qed.

(** A file is created only under the scanned name, and only when that name
    is not empty. *)
Lemma performed_create c o w p e :
  EvCreate p e ∈ performed c o w ->
  p = (scanArgs (args c) [] "").2 /\ p ≠ "" /\ e = os_Create o p.
Proof.
  pose proof (performed_shape c o w) as Hs. cbv zeta in Hs. rewrite Hs.
  case_decide as Hf.
  - destruct (selected o); in_log.
  - destruct (os_Create o _) eqn:He; [in_log|].
    destruct (selected o); in_log.
Qed.

(** Past the file creation a task is launched. *)
Lemma performed_go_exists c o w :
  reachesSelect c o ->
  exists cmd, EvGo cmd (scanArgs (args c) [] "").2 ∈ performed c o w.
Proof.
  intros Hr. unfold reachesSelect in Hr; cbv zeta in Hr.
  pose proof (performed_shape c o w) as Hs. cbv zeta in Hs. rewrite Hs.
  set (cmd0 := setHome _ _). exists cmd0.
  case_decide as Hf.
  - in_log.
  - destruct Hr as [Hr|Hr]; [done|]. rewrite Hr. in_log.
Qed.

(** The caller panics in one case only: the timer case, on a program that
    is not started. *)
Lemma performed_panic c o w v :
  EvPanic v ∈ performed c o w -> selected o = TimerFiresEarly.
Proof.
  pose proof (performed_shape c o w) as Hs. cbv zeta in Hs. rewrite Hs.
  case_decide as Hf.
  - destruct (selected o); in_log.
  - destruct (os_Create o _); [in_log|].
    destruct (selected o); in_log.
Qed.

Lemma performed_panic_early c o w :
  reachesSelect c o ->
  selected o = TimerFiresEarly ->
  exists v, EvPanic v ∈ performed c o w.
Proof.
  intros Hr Hsel. unfold reachesSelect in Hr; cbv zeta in Hr.
  pose proof (performed_shape c o w) as Hs. cbv zeta in Hs.
  rewrite Hs, Hsel. eexists.
  case_decide as Hf.
  - in_log.
  - destruct Hr as [Hr|Hr]; [done|]. rewrite Hr. in_log.
Qed.

(** Past the file creation a program is started, unless the caller
    panics. *)
Lemma performed_exec_exists c o w :
  reachesSelect c o ->
  (forall v, EvPanic v ∉ performed c o w) ->
  exists cmd env, EvExec cmd env ∈ performed c o w.
Proof.
  intros Hr Hnp.
  assert (Hsel : selected o ≠ TimerFiresEarly).
  { intros Hsel. destruct (performed_panic_early c o w Hr Hsel) as [v Hv].
    by apply (Hnp v). }
  clear Hnp. unfold reachesSelect in Hr; cbv zeta in Hr.
  pose proof (performed_shape c o w) as Hs. cbv zeta in Hs. rewrite Hs.
  set (cmd0 := setHome _ _). set (env0 := childEnv _ _ _).
  exists cmd0, env0.
  case_decide as Hf.
  - destruct (selected o); [in_log | done | in_log].
  - destruct Hr as [Hr|Hr]; [done|]. rewrite Hr.
    destruct (selected o); [in_log | done | in_log].
Qed.

(** The outcome that the task sends is the outcome of the program that was
    started. *)
Lemma performed_send c o w r :
  EvSend r ∈ performed c o w ->
  selected o = ResultArrives /\
  EvRecv r ∈ performed c o w /\
  exists cmd env, EvExec cmd env ∈ performed c o w /\
                  EvGo cmd (scanArgs (args c) [] "").2 ∈ performed c o w /\
                  r = outcome o cmd (scanArgs (args c) [] "").2 env.
Proof.
  pose proof (performed_shape c o w) as Hs. cbv zeta in Hs. rewrite Hs.
  set (cmd0 := setHome _ _). set (env0 := childEnv _ _ _).
  case_decide as Hf.
  - destruct (selected o); [in_log | in_log |].
    intros Hin. split; [done|]. split; [in_log|].
    exists cmd0, env0. in_log.
  - destruct (os_Create o _); [in_log|].
    destruct (selected o); [in_log | in_log |].
    intros Hin. split; [done|]. split; [in_log|].
    exists cmd0, env0. in_log.
Qed.

Lemma performed_recv c o w r :
  EvRecv r ∈ performed c o w -> EvSend r ∈ performed c o w.
Proof.
  pose proof (performed_shape c o w) as Hs. cbv zeta in Hs. rewrite Hs.
  case_decide as Hf.
  - destruct (selected o); in_log.
  - destruct (os_Create o _); [in_log|].
    destruct (selected o); in_log.
Qed.

(** The timer is armed with the timeout of the command. *)
Lemma performed_after c o w d :
  EvAfter d ∈ performed c o w -> d = Timeout c.
Proof.
  pose proof (performed_shape c o w) as Hs. cbv zeta in Hs. rewrite Hs.
  case_decide as Hf.
  - destruct (selected o); in_log.
  - destruct (os_Create o _); [in_log|].
    destruct (selected o); in_log.
Qed.

(** ** The claims about [Run] *)

(** C2: the arguments given to the program and the redirection target.
    When no argument of the command starts with ">", the loop keeps the
    whole list and leaves the file name empty: a task is launched for a
    command, with no file name; a program is started unless the caller
    panics; every command a task is launched for and every program started
    has exactly the original arguments and no file as its standard output;
    and no file is created.  When some argument starts with ">", and [a] at
    position [i] is the first one, the loop keeps the arguments before [i]
    and the file name is [a] without its leading ">", trimmed of white
    space: every command a task is launched for and every program started
    has exactly the arguments before [i], and a file that is created has
    that name. *)
Theorem C2_arguments_and_redirection_target (c : RealCmd) (o : Oracle) (w : OS) :
  ((forall a, a ∈ args c -> HasPrefix a ">" = false) ->
     scanArgs (args c) [] "" = (args c, "") /\
     (exists cmd, EvGo cmd "" ∈ performed c o w) /\
     ((forall v, EvPanic v ∉ performed c o w) ->
        exists cmd env, EvExec cmd env ∈ performed c o w) /\
     (forall cmd f, EvGo cmd f ∈ performed c o w ->
        Arg cmd = args c /\ Stdout cmd = None /\ f = "") /\
     (forall cmd env, EvExec cmd env ∈ performed c o w ->
        Arg cmd = args c /\ Stdout cmd = None) /\
     (forall p e, EvCreate p e ∉ performed c o w))
  /\
  (forall i a,
     args c !! i = Some a ->
     HasPrefix a ">" = true ->
     (forall j b, (j < i)%nat -> args c !! j = Some b -> HasPrefix b ">" = false) ->
     scanArgs (args c) [] "" = (take i (args c), TrimSpace (TrimPrefix a ">")) /\
     (forall cmd f, EvGo cmd f ∈ performed c o w ->
        Arg cmd = take i (args c) /\ f = TrimSpace (TrimPrefix a ">")) /\
     (forall cmd env, EvExec cmd env ∈ performed c o w ->
        Arg cmd = take i (args c)) /\
     (forall p e, EvCreate p e ∈ performed c o w ->
        p = TrimSpace (TrimPrefix a ">"))).
Proof.
  split.
  - intros Hno.
    pose proof (scanArgs_none (args c) [] "" Hno) as Hscan. simpl in Hscan.
    assert (Hreach : reachesSelect c o) by (left; by rewrite Hscan).
    split; [done|]. split; [|split; [|split; [|split]]].
    + destruct (performed_go_exists c o w Hreach) as [cmd Hgo].
      rewrite Hscan in Hgo. by exists cmd.
    + by apply performed_exec_exists.
    + intros cmd f Hin.
      destruct (performed_go c o w cmd f Hin) as (Hf & _ & Ha & Ho & _).
      rewrite Hscan in Hf, Ha, Ho. simpl in Hf, Ha, Ho.
      split; [done|]. split; [by rewrite Ho | done].
    + intros cmd env Hin.
      destruct (performed_exec c o w cmd env Hin) as (_ & Ha & Ho & _).
      rewrite Hscan in Ha, Ho. simpl in Ha, Ho. split; [done|].
      by rewrite Ho.
    + intros p e Hin.
      destruct (performed_create c o w p e Hin) as (Hp & Hne & _).
      rewrite Hscan in Hp. simpl in Hp. done.
  - intros i a Hi Ha Hfirst.
    pose proof (scanArgs_first (args c) [] "" i a Hi Ha Hfirst) as Hscan.
    simpl in Hscan.
    split; [done|]. split; [|split].
    + intros cmd f Hin.
      destruct (performed_go c o w cmd f Hin) as (Hf & _ & Hargs & _).
      rewrite Hscan in Hf, Hargs. done.
    + intros cmd env Hin.
      destruct (performed_exec c o w cmd env Hin) as (_ & Hargs & _).
      by rewrite Hscan in Hargs.
    + intros p e Hin.
      destruct (performed_create c o w p e Hin) as (Hp & _).
      by rewrite Hscan in Hp.
Qed.

(** C3: the timer case.  [selected o = TimerFires k] is a call in which the
    timer fires before the outcome arrives and [cmd.Process.Kill()] returns
    [k].  In such a call, once past the file creation: when the kill
    succeeds ([k] is nil) [Run] returns the empty string and [ErrTimeout];
    when it fails, the empty string and [ErrKillProcessAfterTimeout];
    either way the output returned is empty, the program had been started,
    the kill is the one thing done to it, no outcome is received from the
    channel, and the caller does not panic. *)
Theorem C3_timer_first (c : RealCmd) (o : Oracle) (w : OS) (k : option error) :
  reachesSelect c o ->
  selected o = TimerFires k ->
  (k = None -> (Run c o w).1 = ("", Some ErrTimeout)) /\
  (k ≠ None -> (Run c o w).1 = ("", Some ErrKillProcessAfterTimeout)) /\
  (Run c o w).1.1 = "" /\
  (exists cmd env, EvExec cmd env ∈ performed c o w) /\
  EvKill k ∈ performed c o w /\
  (forall r, EvRecv r ∉ performed c o w) /\
  (forall v, EvPanic v ∉ performed c o w).
Proof.
  intros Hr Hsel.
  assert (Hnp : forall v, EvPanic v ∉ performed c o w).
  { intros v Hv. apply performed_panic in Hv. congruence. }
  pose proof (performed_exec_exists c o w Hr Hnp) as Hex.
  unfold reachesSelect in Hr; cbv zeta in Hr.
  pose proof (Run_result c o w) as Hres. cbv zeta in Hres.
  pose proof (performed_shape c o w) as Hs. cbv zeta in Hs.
  rewrite Hsel in Hres, Hs. rewrite Hres. rewrite Hs in Hex, Hnp |- *.
  clear Hres Hs.
  case_decide as Hf.
  - destruct k as [e|]; repeat split; try done; in_log.
  - destruct Hr as [Hr|Hr]; [done|]. rewrite Hr in Hex, Hnp |- *.
    destruct k as [e|]; repeat split; try done; in_log.
Qed.

(** The timer case on a program that is not started.  In a call that gets
    past the file creation and in which the timer fires before the task
    has started the program, line 127 panics: nothing is killed, no program
    is started by then, nothing is received.  The deferred calls still
    run: what is proved of the environment and of the file after a call
    holds for this one too. *)
Lemma Run_timer_before_start c o w :
  reachesSelect c o ->
  selected o = TimerFiresEarly ->
  (exists v, EvPanic v ∈ performed c o w) /\
  (forall k, EvKill k ∉ performed c o w) /\
  (forall cmd env, EvExec cmd env ∉ performed c o w) /\
  (forall r, EvRecv r ∉ performed c o w).
Proof.
  intros Hr Hsel.
  split; [by apply performed_panic_early|].
  unfold reachesSelect in Hr; cbv zeta in Hr.
  pose proof (performed_shape c o w) as Hs. cbv zeta in Hs.
  rewrite Hsel in Hs. rewrite Hs. clear Hs.
  case_decide as Hf.
  - repeat split; in_log.
  - destruct Hr as [Hr|Hr]; [done|]. rewrite Hr.
    repeat split; in_log.
Qed.

(** C4: the result case.  In a call that reaches the select and in which
    the outcome arrives first, an outcome is received, and for the outcome
    [r] received (it is the one the task sent): when its error is an
    [*exec.Error] whose [Err] is [exec.ErrNotFound], [Run] returns the empty
    string and [ErrNotFound]; in every other case, a nil error and an exit
    error included, [Run] returns the output and the error of [r] as they
    are. *)
Theorem C4_result_first (c : RealCmd) (o : Oracle) (w : OS) :
  reachesSelect c o ->
  selected o = ResultArrives ->
  (exists r, EvRecv r ∈ performed c o w) /\
  (forall r, EvRecv r ∈ performed c o w ->
     EvSend r ∈ performed c o w /\
     ((exists n, err r = Some (exec_Error n exec_ErrNotFound)) ->
        (Run c o w).1 = ("", Some ErrNotFound)) /\
     ((forall n, err r ≠ Some (exec_Error n exec_ErrNotFound)) ->
        (Run c o w).1 = (output r, err r)) /\
     (err r = None -> (Run c o w).1 = (output r, None)) /\
     (forall code, err r = Some (exec_ExitError code) ->
        (Run c o w).1 = (output r, Some (exec_ExitError code)))).
Proof.
  intros Hr Hsel. unfold reachesSelect in Hr; cbv zeta in Hr.
  pose proof (Run_result c o w) as Hres. cbv zeta in Hres.
  pose proof (performed_shape c o w) as Hs. cbv zeta in Hs.
  rewrite Hsel in Hres, Hs. rewrite Hres, Hs. clear Hres Hs.
  set (r0 := outcome _ _ _ _).
  assert (Hcases :
    ((exists n, err r0 = Some (exec_Error n exec_ErrNotFound)) ->
       (if isExecNotFound (err r0) then ("", Some ErrNotFound)
        else (output r0, err r0)) = ("", Some ErrNotFound)) /\
    ((forall n, err r0 ≠ Some (exec_Error n exec_ErrNotFound)) ->
       (if isExecNotFound (err r0) then ("", Some ErrNotFound)
        else (output r0, err r0)) = (output r0, err r0)) /\
    (err r0 = None ->
       (if isExecNotFound (err r0) then ("", Some ErrNotFound)
        else (output r0, err r0)) = (output r0, None)) /\
    (forall code, err r0 = Some (exec_ExitError code) ->
       (if isExecNotFound (err r0) then ("", Some ErrNotFound)
        else (output r0, err r0)) = (output r0, Some (exec_ExitError code)))).
  { repeat split.
    - intros [n ->]. done.
    - intros Hne. destruct (err r0) as [[| | | |n [] | |]|]; try done.
      by destruct (Hne n).
    - intros ->. done.
    - intros code ->. done. }
  assert (Hr0 : forall r, r = r0 ->
    ((exists n, err r = Some (exec_Error n exec_ErrNotFound)) ->
       (if isExecNotFound (err r0) then ("", Some ErrNotFound)
        else (output r0, err r0)) = ("", Some ErrNotFound)) /\
    ((forall n, err r ≠ Some (exec_Error n exec_ErrNotFound)) ->
       (if isExecNotFound (err r0) then ("", Some ErrNotFound)
        else (output r0, err r0)) = (output r, err r)) /\
    (err r = None ->
       (if isExecNotFound (err r0) then ("", Some ErrNotFound)
        else (output r0, err r0)) = (output r, None)) /\
    (forall code, err r = Some (exec_ExitError code) ->
       (if isExecNotFound (err r0) then ("", Some ErrNotFound)
        else (output r0, err r0)) = (output r, Some (exec_ExitError code)))).
  { by intros r ->. }
  clear Hcases.
  case_decide as Hf.
  - split; [exists r0; in_log|].
    intros r Hin. assert (r = r0) as Heq by in_log.
    split; [in_log | by apply Hr0].
  - destruct Hr as [Hr|Hr]; [done|]. rewrite Hr.
    split; [exists r0; in_log|].
    intros r Hin. assert (r = r0) as Heq by in_log.
    split; [in_log | by apply Hr0].
Qed.

(** C5: the file that cannot be created.  When the scan gives a file name
    that is not empty and creating that file fails with [e], [Run] returns
    the empty string and [e], and all it has done is the attempt to create
    the file: no task is launched, no timer armed, no program started,
    nothing is sent to or received from a channel. *)
Theorem C5_create_fails_before_spawn (c : RealCmd) (o : Oracle) (w : OS) (e : error) :
  let outFilename := (scanArgs (args c) [] "").2 in
  outFilename ≠ "" ->
  os_Create o outFilename = Some e ->
  (Run c o w).1 = ("", Some e) /\
  performed c o w = [EvCreate outFilename (Some e)].
Proof.
  intros f Hf He. subst f. split.
  - by rewrite (Run_create_fails c o w e Hf He).
  - pose proof (performed_shape c o w) as Hs. cbv zeta in Hs. rewrite Hs.
    case_decide; [done|]. by rewrite He.
Qed.

(** C6, as amended: PATH is put back when it was set.  Whatever the
    command, the file system, the program and the scheduler do (so on each
    way out of [Run]: completion, not found, file not created, timeout with
    or without a successful kill, panic), [os.Getenv("PATH")] gives after
    the call the value it gave when the call began; a PATH that was set at
    entry holds after the call exactly the value it held; and a PATH that
    was not set at entry is set, to the empty string, after the call. *)
Theorem C6_PATH_restored (c : RealCmd) (o : Oracle) (w : OS) :
  Getenv (Run c o w).2 "PATH" = Getenv w "PATH" /\
  (forall v, environ w !! "PATH" = Some v ->
     environ (Run c o w).2 !! "PATH" = Some v) /\
  (environ w !! "PATH" = None ->
     environ (Run c o w).2 !! "PATH" = Some "").
Proof.
  unfold Getenv at 1. rewrite Run_environ, lookup_insert_eq.
  split; [done|]. unfold Getenv. split.
  - by intros v ->.
  - by intros ->.
Qed.

(** The rest of the environment is as it was, and so is PATH itself when it
    was present. *)
Lemma Run_environ_other c o w k :
  k ≠ "PATH" -> environ (Run c o w).2 !! k = environ w !! k.
Proof. intros Hk. rewrite Run_environ. by rewrite lookup_insert_ne. Qed.

Lemma Run_environ_same c o w v :
  environ w !! "PATH" = Some v -> environ (Run c o w).2 = environ w.
Proof.
  intros Hv. rewrite Run_environ. unfold Getenv. rewrite Hv. simpl.
  by apply insert_id.
Qed.

(** From the outcome sent back to the program whose outcome it is. *)
Lemma sent_is_CombinedOutput c o w r :
  EvSend r ∈ performed c o w ->
  exists cmd env,
    EvExec cmd env ∈ performed c o w /\
    ((scanArgs (args c) [] "").2 = "" ->
       (output r, err r) = CombinedOutput o cmd env).
Proof.
  intros Hin.
  destruct (performed_send c o w r Hin) as (_ & _ & cmd & env & Hex & _ & ->).
  exists cmd, env. split; [done|]. intros Hf.
  unfold outcome. case_decide; [|done]. by destruct (CombinedOutput o cmd env).
Qed.

(** C7: the outcome of the task.  For every outcome [r] that the task of a
    call sends, there is a program that the call started, with command
    [cmd] and environment [env], such that: when the scanned file name is
    not empty, the output of [r] is that file name and its error is the
    error of [cmd.Run()]; when it is empty, the output and the error of [r]
    are those of [cmd.CombinedOutput()]. *)
Theorem C7_outcome_of_task (c : RealCmd) (o : Oracle) (w : OS) (r : result) :
  EvSend r ∈ performed c o w ->
  let redirectFile := (scanArgs (args c) [] "").2 in
  exists cmd env,
    EvExec cmd env ∈ performed c o w /\
    EvGo cmd redirectFile ∈ performed c o w /\
    (redirectFile ≠ "" ->
       output r = redirectFile /\ err r = cmd_Run o cmd env) /\
    (redirectFile = "" ->
       (output r, err r) = CombinedOutput o cmd env).
Proof.
  intros Hin f.
  destruct (performed_send c o w r Hin) as (_ & _ & cmd & env & Hex & Hgo & ->).
  exists cmd, env. split; [done|]. split; [done|].
  fold f. unfold outcome. split; intros Hf.
  - by case_decide.
  - case_decide; [|done]. by destruct (CombinedOutput o cmd env).
Qed.


(** C10: a marker that trims to nothing.  When the first argument that
    starts with ">" is [a], at position [i], and [a] without its ">"
    trims to the empty string, the scan keeps the arguments before [i] and
    gives an empty file name: no file is created; a task is launched for
    a command with no file name, and a program is started unless the caller
    panics; every command a task is launched for and every program started
    has exactly the arguments before [i] ([a] and all that follows are
    dropped) and no file as its standard output;
    the outcome the task sends is that of [cmd.CombinedOutput()]; and when
    the outcome arrives first, [Run] returns that combined output and error
    (the not-found translation apart). *)
Theorem C10_empty_target_still_truncates (c : RealCmd) (o : Oracle) (w : OS)
    (i : nat) (a : string) :
  args c !! i = Some a ->
  HasPrefix a ">" = true ->
  (forall j b, (j < i)%nat -> args c !! j = Some b -> HasPrefix b ">" = false) ->
  TrimSpace (TrimPrefix a ">") = "" ->
  scanArgs (args c) [] "" = (take i (args c), "") /\
  (forall p e, EvCreate p e ∉ performed c o w) /\
  (exists cmd, EvGo cmd "" ∈ performed c o w) /\
  ((forall v, EvPanic v ∉ performed c o w) ->
     exists cmd env, EvExec cmd env ∈ performed c o w) /\
  (forall cmd f, EvGo cmd f ∈ performed c o w ->
     Arg cmd = take i (args c) /\ Stdout cmd = None /\ f = "") /\
  (forall cmd env, EvExec cmd env ∈ performed c o w ->
     Arg cmd = take i (args c) /\ Stdout cmd = None) /\
  (forall r, EvSend r ∈ performed c o w ->
     exists cmd env, EvExec cmd env ∈ performed c o w /\
                     (output r, err r) = CombinedOutput o cmd env) /\
  (selected o = ResultArrives ->
     exists cmd env,
       EvExec cmd env ∈ performed c o w /\
       (Run c o w).1 =
         (if isExecNotFound (CombinedOutput o cmd env).2
          then ("", Some ErrNotFound)
          else CombinedOutput o cmd env)).
Proof.
  intros Hi Ha Hfirst Hempty.
  pose proof (scanArgs_first (args c) [] "" i a Hi Ha Hfirst) as Hscan.
  simpl in Hscan. rewrite Hempty in Hscan.
  assert (Hf : (scanArgs (args c) [] "").2 = "") by by rewrite Hscan.
  assert (Hreach : reachesSelect c o) by by left.
  split; [done|]. split; [|split; [|split; [|split; [|split; [|split]]]]].
  - intros p e Hin.
    destruct (performed_create c o w p e Hin) as (Hp & Hne & _).
    rewrite Hf in Hp. done.
  - destruct (performed_go_exists c o w Hreach) as [cmd Hgo].
    rewrite Hf in Hgo. by exists cmd.
  - by apply performed_exec_exists.
  - intros cmd f Hin.
    destruct (performed_go c o w cmd f Hin) as (Hf' & _ & Hargs & Ho & _).
    rewrite Hscan in Hargs. rewrite Hf in Ho, Hf'. done.
  - intros cmd env Hin.
    destruct (performed_exec c o w cmd env Hin) as (_ & Hargs & Ho & _).
    rewrite Hscan in Hargs. rewrite Hf in Ho. done.
  - intros r Hin.
    destruct (sent_is_CombinedOutput c o w r Hin) as (cmd & env & Hex & Hout).
    exists cmd, env. split; [done|]. by apply Hout.
  - intros Hsel.
    pose proof (Run_result c o w) as Hres. cbv zeta in Hres.
    pose proof (performed_shape c o w) as Hs. cbv zeta in Hs.
    rewrite Hsel in Hres, Hs. rewrite Hres, Hs. clear Hres Hs.
    case_decide; [|done].
    do 2 eexists. split.
    + apply elem_of_app. right. left.
    + unfold outcome. rewrite Hf. case_decide; [|done].
      by destruct (CombinedOutput o _ _).
Qed.

End Facts.

(** ** The search path during the call *)

(** What lines 88-94 assign to PATH. *)
Lemma setPath_PATH Dir ListSeparator o osPath w :
  Getenv (setPath Dir ListSeparator o osPath w) "PATH" =
  match (os_Executable o).2 with
  | Some _ => Dir (os_Executable o).1 +:+ "/bin/" +:+ ListSeparator +:+ osPath
  | None => Dir (os_Args0 o) +:+ ListSeparator +:+ osPath
  end.
Proof.
  unfold setPath. destruct (os_Executable o) as [b [e|]]; simpl;
    apply Getenv_Setenv_eq.
Qed.

(** C1, on the code: the test of line 88 is the wrong way round.  With the
    executable resolved to
    /usr/local/percona/qan-agent/bin/percona-qan-agent, the agent started as
    "percona-qan-agent" and PATH=/usr/bin, the program is started with
    PATH=.:/usr/bin, the directory of argument zero and no "/bin", where the
    claim asks for /usr/local/percona/qan-agent/bin/bin:/usr/bin.  With the
    executable not resolved and argument zero the full path, the program is
    started with PATH=./bin/:/usr/bin, built from the empty path that came
    with the error, where the claim asks for the directory of argument
    zero. *)
Theorem C1_PATH_branches_swapped :
  Sample.execEnvs (Sample.did Sample.echo Sample.quiet Sample.agentEnv)
    = [["PATH=.:/usr/bin"; "HOME=/root"]] /\
  Sample.slashDir (os_Executable Sample.quiet).1 +:+ "/bin" +:+ ":" +:+ "/usr/bin"
    = "/usr/local/percona/qan-agent/bin/bin:/usr/bin" /\
  Sample.execEnvs (Sample.did Sample.echo Sample.lost Sample.agentEnv)
    = [["PATH=./bin/:/usr/bin"; "HOME=/root"]] /\
  Sample.slashDir (os_Args0 Sample.lost) +:+ ":" +:+ "/usr/bin"
    = "/usr/local/percona/qan-agent/bin:/usr/bin".
Proof. repeat split; vm_compute; reflexivity. Qed.

(** ** The default timeout *)

Lemma sixty_seconds : 60 * time.Second = 60000000000.
Proof. reflexivity. Qed.

(** C9, as amended: the timeout of a new command.  In every state of the
    package, [Make] (which is [NewRealCmd]) yields a new structure whose
    [Timeout] is the value that the package variable [DefaultTimeout] holds
    at that moment, and leaves the other structures and the variable as
    they were.  The variable starts at 60 seconds, that is
    60 000 000 000 ns, so the timeout of a new command is 60 seconds as long
    as the variable holds its initial value.  Assigning [d] to the
    [Timeout] of the new command gives it the timeout [d], changes no other
    command and not [DefaultTimeout], and a command built afterwards still
    gets the value of [DefaultTimeout]. *)
Theorem C9_Make_timeout_is_DefaultTimeout (p : Package) (f : RealCmdFactory)
    (prog : string) (argv : list string) :
  let c := (Make f prog argv p).1 in
  let p1 := (Make f prog argv p).2 in
  Make f prog argv p = NewRealCmd prog argv p /\
  heap p !! c = None /\
  Timeout <$> heap p1 !! c = Some (DefaultTimeout p) /\
  DefaultTimeout p1 = DefaultTimeout p /\
  DefaultTimeout init = 60 * time.Second /\
  60 * time.Second = 60000000000 /\
  (DefaultTimeout p = DefaultTimeout init ->
     Timeout <$> heap p1 !! c = Some 60000000000) /\
  (forall q, q ≠ c -> heap p1 !! q = heap p !! q) /\
  (forall d,
     let p2 := setTimeout c d p1 in
     Timeout <$> heap p2 !! c = Some d /\
     (forall q, q ≠ c -> heap p2 !! q = heap p1 !! q) /\
     DefaultTimeout p2 = DefaultTimeout p /\
     (forall f' name' args',
        Timeout <$> heap (Make f' name' args' p2).2 !! (Make f' name' args' p2).1
        = Some (DefaultTimeout p))).
Proof.
  intros c p1.
  assert (Hc : c = length (heap p)) by done.
  assert (Hp1 : heap p1 = (heap p ++ [ {| Timeout := DefaultTimeout p;
                                          name := prog; args := argv |} ])%list)
    by done.
  assert (Hnew : Timeout <$> heap p1 !! c = Some (DefaultTimeout p)).
  { by rewrite Hp1, Hc, lookup_app_r, Nat.sub_diag. }
  split; [done|]. split; [|split; [done|]].
  { rewrite Hc. by apply lookup_ge_None_2. }
  split; [done|]. split; [done|]. split; [done|]. split; [|split].
  - intros Hdef. by rewrite Hnew, Hdef.
  - intros q Hq. rewrite Hp1.
    destruct (decide (q < length (heap p))%nat) as [Hlt|Hge].
    + by rewrite lookup_app_l.
    + rewrite !lookup_ge_None_2; [done | lia |].
      rewrite length_app. simpl. lia.
  - intros d p2.
    assert (Hp2 : heap p2 = alter (fun r => {| Timeout := d; name := name r;
                                               args := args r |}) c (heap p1))
      by done.
    split; [|split; [|split]].
    + rewrite Hp2, list_lookup_alter_eq.
      rewrite Hp1, Hc, lookup_app_r, Nat.sub_diag by done. done.
    + intros q Hq. rewrite Hp2. by rewrite list_lookup_alter_ne.
    + done.
    + intros f' name' args'. unfold Make, RealCmdFactory_Make, NewRealCmd; simpl.
      by rewrite lookup_app_r, Nat.sub_diag.
Qed.

(** C9, as the claim has it, fails: after [cmd.DefaultTimeout = time.Second]
    the command that [Make] builds has a timeout of one second, not of
    60 seconds. *)
Lemma C9_DefaultTimeout_assigned_counterexample :
  Timeout <$> heap (Make mkRealCmdFactory "echo" ["hello"]
                      (setDefaultTimeout time.Second init)).2
              !! (Make mkRealCmdFactory "echo" ["hello"]
                    (setDefaultTimeout time.Second init)).1
    = Some 1000000000 /\
  Timeout <$> heap (Make mkRealCmdFactory "echo" ["hello"]
                      (setDefaultTimeout time.Second init)).2
              !! (Make mkRealCmdFactory "echo" ["hello"]
                    (setDefaultTimeout time.Second init)).1
    ≠ Some (60 * time.Second).
Proof. split; [reflexivity | discriminate]. Qed.

(** C6, as the claim has it, fails: an agent that has no PATH has one, set
    to nothing, after "echo hello". *)
Lemma C6_unset_PATH_counterexample :
  environ {| environ := ∅; events := [] |} !! "PATH" = None /\
  environ (Sample.run Sample.echo Sample.quiet
             {| environ := ∅; events := [] |}).2 !! "PATH" = Some "" /\
  environ (Sample.run Sample.echo Sample.quiet
             {| environ := ∅; events := [] |}).2 !! "PATH"
    ≠ environ {| environ := ∅; events := [] |} !! "PATH".
Proof.
  unfold Sample.run. rewrite Run_environ. simpl.
  rewrite lookup_insert_eq, lookup_empty. done.
Qed.

(** ** The theorems at work on the sample agent *)

(** "echo hello": the arguments go through; "echo hi '> /tmp/out.txt'":
    the program gets "hi" and the target is /tmp/out.txt. *)
Lemma C2_arguments_and_redirection_target_witness :
  scanArgs Sample.asciiTrimSpace (args Sample.echo) [] "" = (["hello"], "") /\
  scanArgs Sample.asciiTrimSpace (args Sample.echoTo) [] ""
    = (["hi"], "/tmp/out.txt").
Proof.
  split.
  - apply (proj1 (C2_arguments_and_redirection_target
                    Sample.asciiTrimSpace Sample.slashDir ":"
                    Sample.echo Sample.quiet Sample.agentEnv)).
    intros a Ha. apply list_elem_of_singleton in Ha. rewrite Ha. reflexivity.
  - apply (proj2 (C2_arguments_and_redirection_target
                    Sample.asciiTrimSpace Sample.slashDir ":"
                    Sample.echoTo Sample.quiet Sample.agentEnv)
                 1%nat "> /tmp/out.txt" eq_refl eq_refl).
    intros j b Hj Hb. destruct j as [|j]; [|lia].
    injection Hb as <-. reflexivity.
Defined.

(** "sleep 5" under a timeout of 100 ms, killed in time. *)
Lemma C3_timer_first_witness :
  (Sample.run Sample.sleep5 Sample.stuck Sample.agentEnv).1
    = ("", Some ErrTimeout).
Proof.
  apply (C3_timer_first Sample.asciiTrimSpace Sample.slashDir ":"
           Sample.sleep5 Sample.stuck Sample.agentEnv None);
    [left; reflexivity | reflexivity | reflexivity].
Defined.

(** "echo hello" ends in time: an outcome is received. *)
Lemma C4_result_first_witness :
  exists r, EvRecv r ∈ Sample.did Sample.echo Sample.quiet Sample.agentEnv.
Proof.
  apply (C4_result_first Sample.asciiTrimSpace Sample.slashDir ":"
           Sample.echo Sample.quiet Sample.agentEnv);
    [left; reflexivity | reflexivity].
Defined.

(** "echo hi '> /tmp/out.txt'" where no file can be created. *)
Lemma C5_create_fails_before_spawn_witness :
  (Sample.run Sample.echoTo Sample.readonly Sample.agentEnv).1
    = ("", Some (errorString "permission denied")) /\
  Sample.did Sample.echoTo Sample.readonly Sample.agentEnv
    = [EvCreate "/tmp/out.txt" (Some (errorString "permission denied"))].
Proof.
  apply (C5_create_fails_before_spawn Sample.asciiTrimSpace Sample.slashDir ":"
           Sample.echoTo Sample.readonly Sample.agentEnv
           (errorString "permission denied"));
    [vm_compute; discriminate | reflexivity].
Defined.

(** "echo hi '> /tmp/out.txt'": the outcome carries the file name. *)
Lemma C7_outcome_of_task_witness :
  exists cmd env,
    EvExec cmd env ∈ Sample.did Sample.echoTo Sample.quiet Sample.agentEnv /\
    EvGo cmd "/tmp/out.txt" ∈ Sample.did Sample.echoTo Sample.quiet Sample.agentEnv /\
    ("/tmp/out.txt" ≠ "" ->
       "/tmp/out.txt" = "/tmp/out.txt" /\ None = cmd_Run Sample.quiet cmd env) /\
    ("/tmp/out.txt" = "" ->
       ("/tmp/out.txt", None) = CombinedOutput Sample.quiet cmd env).
Proof.
  apply (C7_outcome_of_task Sample.asciiTrimSpace Sample.slashDir ":"
           Sample.echoTo Sample.quiet Sample.agentEnv
           {| output := "/tmp/out.txt"; err := None |}).
  vm_compute. do 4 apply list_elem_of_further. apply list_elem_of_here.
Defined.

(** "echo hello" for an agent that has no PATH: it has one, empty,
    afterwards; for the sample agent PATH is /usr/bin again. *)
Lemma C6_PATH_restored_witness :
  environ (Sample.run Sample.echo Sample.quiet
             {| environ := ∅; events := [] |}).2 !! "PATH" = Some "" /\
  environ (Sample.run Sample.echo Sample.hasty Sample.agentEnv).2 !! "PATH"
    = Some "/usr/bin".
Proof.
  split.
  - apply (proj2 (proj2 (C6_PATH_restored
                           Sample.asciiTrimSpace Sample.slashDir ":"
                           Sample.echo Sample.quiet
                           {| environ := ∅; events := [] |}))).
    reflexivity.
  - apply (proj1 (proj2 (C6_PATH_restored
                           Sample.asciiTrimSpace Sample.slashDir ":"
                           Sample.echo Sample.hasty Sample.agentEnv))).
    reflexivity.
Defined.


(** The first command built in a fresh package. *)
Lemma C9_Make_timeout_is_DefaultTimeout_witness :
  Timeout <$> heap (Make mkRealCmdFactory "echo" ["hello"] init).2 !! 0%nat
    = Some 60000000000.
Proof.
  destruct (C9_Make_timeout_is_DefaultTimeout init mkRealCmdFactory "echo"
              ["hello"]) as (_ & _ & _ & _ & _ & _ & Hinit & _).
  apply Hinit. reflexivity.
Defined.

(** "echo hi > more": the program gets "hi" alone and nothing is
    redirected. *)
Lemma C10_empty_target_still_truncates_witness :
  scanArgs Sample.asciiTrimSpace (args Sample.echoBare) [] "" = (["hi"], "").
Proof.
  apply (C10_empty_target_still_truncates
           Sample.asciiTrimSpace Sample.slashDir ":"
           Sample.echoBare Sample.quiet Sample.agentEnv 1%nat ">");
    [reflexivity | reflexivity | | reflexivity].
  intros j b Hj Hb. destruct j as [|j]; [|lia].
  injection Hb as <-. reflexivity.
Defined.

(** ** Scenarios *)

Example trim_marker_alone :
  Sample.asciiTrimSpace (TrimPrefix ">" ">") = "" /\
  Sample.asciiTrimSpace (TrimPrefix "> " ">") = "" /\
  Sample.asciiTrimSpace (TrimPrefix "> /tmp/out.txt " ">") = "/tmp/out.txt" /\
  Sample.asciiTrimSpace (TrimPrefix ">/tmp/out.txt" ">") = "/tmp/out.txt".
Proof. repeat split. Qed.

Example slashDir_samples :
  Sample.slashDir "/usr/local/percona/qan-agent/bin/percona-qan-agent"
    = "/usr/local/percona/qan-agent/bin" /\
  Sample.slashDir "percona-qan-agent" = "." /\
  Sample.slashDir "" = "." /\
  Sample.slashDir "/agent" = "/".
Proof. repeat split. Qed.

Example run_echo_hello :
  (Sample.run Sample.echo Sample.quiet Sample.agentEnv).1
    = ("hello" +:+ String "010"%char "", None).
Proof. vm_compute. reflexivity. Qed.

Example run_echo_redirected :
  (Sample.run Sample.echoTo Sample.quiet Sample.agentEnv).1
    = ("/tmp/out.txt", None) /\
  Sample.did Sample.echoTo Sample.quiet Sample.agentEnv =
    let cmd := {| Name := "echo"; Arg := ["hi"];
                  Env := Some ["PATH=.:/usr/bin"; "HOME=/root"];
                  Stdout := Some "/tmp/out.txt" |} in
    let r := {| output := "/tmp/out.txt"; err := None |} in
    [EvCreate "/tmp/out.txt" None;
     EvGo cmd "/tmp/out.txt";
     EvAfter 60000000000;
     EvExec cmd ["PATH=.:/usr/bin"; "HOME=/root"];
     EvSend r; EvRecv r;
     EvClose "/tmp/out.txt"].
Proof. split; vm_compute; reflexivity. Qed.

Example run_echo_bare_marker :
  (Sample.run Sample.echoBare Sample.quiet Sample.agentEnv).1
    = ("hi" +:+ String "010"%char "", None).
Proof. vm_compute. reflexivity. Qed.

Example run_sleep_unkillable :
  (Sample.run Sample.sleep5 Sample.unkillable Sample.agentEnv).1
    = ("", Some ErrKillProcessAfterTimeout).
Proof. vm_compute. reflexivity. Qed.

Example run_nonexistent :
  (Sample.run Sample.nonexistent Sample.absent Sample.agentEnv).1
    = ("", Some ErrNotFound).
Proof. vm_compute. reflexivity. Qed.

Example run_failing :
  (Sample.run Sample.echo Sample.failing Sample.agentEnv).1
    = ("boom", Some (exec_ExitError 3)).
Proof. vm_compute. reflexivity. Qed.

Example run_keeps_environment :
  environ (Sample.run Sample.echoTo Sample.stuck Sample.agentEnv).2
    = environ Sample.agentEnv.
Proof. by apply (Run_environ_same _ _ _ _ _ _ "/usr/bin"). Qed.

(** The timer fires before the program of "echo hi '> /tmp/out.txt'" is
    started: the caller panics, and the file is closed all the same. *)
Example run_timer_before_start :
  Sample.did Sample.echoTo Sample.hasty Sample.agentEnv =
    [EvCreate "/tmp/out.txt" None;
     EvGo {| Name := "echo"; Arg := ["hi"];
             Env := Some ["PATH=.:/usr/bin"; "HOME=/root"];
             Stdout := Some "/tmp/out.txt" |} "/tmp/out.txt";
     EvAfter 60000000000;
     EvPanic "invalid memory address or nil pointer dereference";
     EvClose "/tmp/out.txt"] /\
  environ (Sample.run Sample.echoTo Sample.hasty Sample.agentEnv).2
    = environ Sample.agentEnv.
Proof.
  split; [vm_compute; reflexivity|].
  by apply (Run_environ_same _ _ _ _ _ _ "/usr/bin").
Qed.

(** An agent whose HOME is set to nothing: the command carries the empty
    HOME and the fallback, the program receives the fallback. *)
Example run_with_empty_HOME :
  Sample.did Sample.echo Sample.quiet Sample.homelessEnv =
    let cmd := {| Name := "echo"; Arg := ["hello"];
                  Env := Some ["HOME="; "PATH=.:/usr/bin"; "HOME=/root"];
                  Stdout := None |} in
    let r := {| output := "hello" +:+ String "010"%char ""; err := None |} in
    [EvGo cmd ""; EvAfter 60000000000;
     EvExec cmd ["PATH=.:/usr/bin"; "HOME=/root"];
     EvSend r; EvRecv r].
Proof. vm_compute. reflexivity. Qed.

(** * More of the package *)

(** ** Strings *)

Lemma append_assoc (a b c : string) : (a +:+ b) +:+ c = a +:+ (b +:+ c).
Proof.
  induction a as [|x a IH]; [done|].
  change (String x ((a +:+ b) +:+ c) = String x (a +:+ (b +:+ c))).
  by rewrite IH.
Qed.

Lemma substring_all (s : string) : String.substring 0 (String.length s) s = s.
Proof. induction s as [|x s IH]; [done|]. cbn. f_equal. apply IH. Qed.

(** An argument made of ">" and a rest is a marker, and the rest is what
    [strings.TrimPrefix] leaves of it. *)
Lemma marker_rest (rest : string) :
  HasPrefix (">" +:+ rest) ">" = true /\ TrimPrefix (">" +:+ rest) ">" = rest.
Proof.
  change (">" +:+ rest) with (String ">"%char rest).
  unfold TrimPrefix, HasPrefix. simpl.
  assert (Hnil : String.prefix "" rest = true) by by destruct rest.
  rewrite Hnil. split; [done|].
  rewrite Nat.sub_0_r. apply substring_all.
Qed.

Section More.

Variable TrimSpace : string -> string.
Variable Dir : string -> string.
Variable ListSeparator : string.

#[local] Abbreviation scanArgs := (scanArgs TrimSpace).
#[local] Abbreviation setPath := (setPath Dir ListSeparator).
#[local] Abbreviation Run := (Run TrimSpace Dir ListSeparator).
#[local] Abbreviation performed := (performed TrimSpace Dir ListSeparator).
#[local] Abbreviation reachesSelect := (reachesSelect TrimSpace).

Ltac in_log :=
  intros;
  repeat (rewrite ?elem_of_app, ?elem_of_cons, ?elem_of_nil in * );
  intuition (discriminate || congruence || eauto).

(** The arguments kept by the loop are a prefix of the arguments visited,
    none of which is a marker. *)
Lemma scanArgs_kept rest : forall acc f,
  exists k, (scanArgs rest acc f).1 = (acc ++ take k rest)%list /\
            forall a, a ∈ take k rest -> HasPrefix a ">" = false.
Proof.
  induction rest as [|x rest IH]; intros acc f; simpl.
  - exists 0%nat. split; [by rewrite app_nil_r|].
    intros a Ha. by apply elem_of_nil in Ha.
  - destruct (HasPrefix x ">") eqn:Hx.
    + exists 0%nat. split; [by rewrite app_nil_r|].
      intros a Ha. by apply elem_of_nil in Ha.
    + destruct (IH (acc ++ [x])%list f) as (k & Hk & Hno).
      exists (S k). split.
      * rewrite Hk. simpl. by rewrite <- app_assoc.
      * simpl. intros a [->|Ha]%elem_of_cons; [done | by apply Hno].
Qed.

(** ** The environment of the agent across a call *)

(** X1: the call leaves the environment of the agent alone.  Every variable
    other than PATH has after [Run] the value (or the absence) it had
    before, on every way out; and when PATH was present at entry, the whole
    environment after the call is the environment before it. *)
Theorem Run_frames_environment (c : RealCmd) (o : Oracle) (w : OS) :
  (forall k, k ≠ "PATH" -> environ (Run c o w).2 !! k = environ w !! k) /\
  (forall v, environ w !! "PATH" = Some v -> environ (Run c o w).2 = environ w).
Proof.
  split.
  - intros k Hk. by apply Run_environ_other.
  - intros v Hv. by apply (Run_environ_same _ _ _ _ _ _ v).
Qed.

(** X2: an absent PATH comes back present.  After [Run], PATH is always
    present in the environment of the agent, with the value that
    [os.Getenv] gave at entry; so when PATH was absent at entry it is
    present and empty afterwards, and the environment is not the one the
    call started from. *)
Theorem Run_leaves_PATH_set (c : RealCmd) (o : Oracle) (w : OS) :
  environ (Run c o w).2 !! "PATH" = Some (Getenv w "PATH") /\
  (environ w !! "PATH" = None ->
     environ (Run c o w).2 = <["PATH" := ""]> (environ w) /\
     environ (Run c o w).2 ≠ environ w).
Proof.
  rewrite Run_environ. split; [by rewrite lookup_insert_eq|].
  intros Hnone. unfold Getenv. rewrite Hnone. simpl. split; [done|].
  intros Heq. assert (Hl : (<["PATH" := ""]> (environ w)) !! "PATH" = None)
    by by rewrite Heq.
  by rewrite lookup_insert_eq in Hl.
Qed.

(** ** The file of a call *)

(** X5: the file is closed whenever it was opened.  If a call created the
    file [p], the last thing the call did is to close [p], also when the
    call timed out; a call closes nothing but the file it created; and a
    call whose file could not be created closes nothing. *)
Theorem Run_closes_its_file (c : RealCmd) (o : Oracle) (w : OS) :
  (forall p, EvCreate p None ∈ performed c o w ->
     last (performed c o w) = Some (EvClose p)) /\
  (forall p, EvClose p ∈ performed c o w ->
     EvCreate p None ∈ performed c o w) /\
  (forall p e, EvCreate p (Some e) ∈ performed c o w ->
     forall q, EvClose q ∉ performed c o w).
Proof.
  pose proof (performed_shape TrimSpace Dir ListSeparator c o w) as Hs.
  cbv zeta in Hs. rewrite Hs. clear Hs.
  case_decide as Hf.
  - destruct (selected o); repeat split; in_log.
  - destruct (os_Create o _) as [e|] eqn:He.
    + repeat split; in_log.
    + split; [|split].
      * intros p Hp. rewrite !app_assoc, last_snoc.
        destruct (selected o); in_log.
      * destruct (selected o); in_log.
      * destruct (selected o); in_log.
Qed.

(** Past the file creation the timer is armed. *)
Lemma timer_armed c o w :
  reachesSelect c o -> EvAfter (Timeout c) ∈ performed c o w.
Proof.
  intros Hr. unfold reachesSelect in Hr; cbv zeta in Hr.
  pose proof (performed_shape TrimSpace Dir ListSeparator c o w) as Hs.
  cbv zeta in Hs. rewrite Hs. clear Hs.
  case_decide as Hf.
  - in_log.
  - destruct Hr as [Hr|Hr]; [done|]. rewrite Hr. in_log.
Qed.

(** ** What the program is given *)

(** The programs started have the name of the command and a prefix of its
    arguments. *)
Lemma started_program_of_command c o w cmd env :
  EvExec cmd env ∈ performed c o w ->
  Name cmd = name c /\ Arg cmd `prefix_of` args c.
Proof.
  intros Hin.
  destruct (performed_exec TrimSpace Dir ListSeparator c o w cmd env Hin)
    as (Hn & Ha & _).
  destruct (scanArgs_kept (args c) [] "") as (k & Hk & _).
  simpl in Hk. rewrite Hk in Ha. rewrite Ha.
  split; [done | apply prefix_take].
Qed.

(** X6: no program is ever handed a marker.  Every program that a call
    starts has the name of the command, and its arguments are a prefix of
    the arguments of the command in which no argument starts with ">". *)
Theorem programs_get_no_marker (c : RealCmd) (o : Oracle) (w : OS)
    (cmd : exec_Cmd) (env : list string) :
  EvExec cmd env ∈ performed c o w ->
  Name cmd = name c /\
  Arg cmd `prefix_of` args c /\
  (forall a, a ∈ Arg cmd -> HasPrefix a ">" = false).
Proof.
  intros Hin.
  destruct (performed_exec TrimSpace Dir ListSeparator c o w cmd env Hin)
    as (Hn & Ha & _).
  destruct (scanArgs_kept (args c) [] "") as (k & Hk & Hno).
  simpl in Hk. rewrite Hk in Ha. rewrite Ha.
  split; [done|]. split; [apply prefix_take | done].
Qed.

(** X7: the target is the text after one ">".  When the arguments of the
    command are [pre], then ">" followed by [rest], then [l], and nothing in
    [pre] starts with ">", the scan keeps [pre] and names the file
    [TrimSpace rest] whatever [l] is: the programs started get [pre], and a
    file that is created is [TrimSpace rest].  Only one ">" is taken off, so
    a second one stays in the name. *)
Theorem target_is_rest_of_marker (c : RealCmd) (o : Oracle) (w : OS)
    (pre l : list string) (rest : string) :
  args c = (pre ++ (">" +:+ rest) :: l)%list ->
  (forall a, a ∈ pre -> HasPrefix a ">" = false) ->
  scanArgs (args c) [] "" = (pre, TrimSpace rest) /\
  (forall cmd env, EvExec cmd env ∈ performed c o w -> Arg cmd = pre) /\
  (forall p e, EvCreate p e ∈ performed c o w -> p = TrimSpace rest).
Proof.
  intros Hargs Hno.
  destruct (marker_rest rest) as [Hm Ht].
  assert (Hscan : scanArgs (args c) [] "" = (pre, TrimSpace rest)).
  { rewrite (scanArgs_first TrimSpace (args c) [] "" (length pre) (">" +:+ rest)).
    - simpl. rewrite Hargs, take_app_length, Ht. done.
    - rewrite Hargs. by apply list_lookup_middle.
    - done.
    - intros j b Hj Hb. rewrite Hargs, lookup_app_l in Hb by done.
      apply Hno. by eapply list_elem_of_lookup_2. }
  split; [done|]. split.
  - intros cmd env Hin.
    destruct (performed_exec TrimSpace Dir ListSeparator c o w cmd env Hin)
      as (_ & Ha & _).
    by rewrite Hscan in Ha.
  - intros p e Hin.
    destruct (performed_create TrimSpace Dir ListSeparator c o w p e Hin)
      as (Hp & _).
    by rewrite Hscan in Hp.
Qed.

(** X10: the environment prepared for the program.  For every program
    that a call starts, the list that [os/exec] is given for it ([cmd.Env],
    or [os.Environ()] when [cmd.Env] is nil) has each variable other than
    PATH that the agent has at entry, with its value, and an entry for PATH
    whose value ends with the list separator and the PATH read at entry;
    when [os.Getenv("HOME")] is empty at entry the list ends with
    "HOME=/root", after any empty HOME entry of the agent, which stays in
    the list.  The program receives what [os/exec] makes of that list. *)
Theorem program_inherits_environment (c : RealCmd) (o : Oracle) (w : OS)
    (cmd : exec_Cmd) (env : list string) :
  EvExec cmd env ∈ performed c o w ->
  let given := givenEnv cmd (setPath o (Getenv w "PATH") w) in
  env = exec_environ o given /\
  (forall k v, k ≠ "PATH" -> environ w !! k = Some v ->
     (k +:+ "=" +:+ v) ∈ given) /\
  (exists pre,
     ("PATH" +:+ "=" +:+ (pre +:+ ListSeparator +:+ Getenv w "PATH")) ∈ given) /\
  (Getenv w "HOME" = "" -> last given = Some "HOME=/root").
Proof.
  intros Hin given.
  destruct (performed_exec TrimSpace Dir ListSeparator c o w cmd env Hin)
    as (_ & _ & _ & Hcmd & Henv).
  subst given.
  set (w1 := setPath o (Getenv w "PATH") w) in *.
  assert (Hhome : Getenv w1 "HOME" = Getenv w "HOME").
  { unfold Getenv, w1. by rewrite setPath_other. }
  assert (Hsub : forall k v, environ w1 !! k = Some v ->
            (k +:+ "=" +:+ v) ∈ givenEnv cmd w1).
  { intros k v Hkv.
    assert (Hx : (k +:+ "=" +:+ v) ∈ Environ w1).
    { unfold Environ.
      apply (list_elem_of_fmap_2' _ _ (k, v)); [|done].
      by apply elem_of_map_to_list. }
    unfold givenEnv. rewrite Hcmd. unfold setHome.
    case_decide; simpl; [|done].
    apply elem_of_app. by left. }
  split; [done|]. split; [|split].
  - intros k v Hk Hkv. apply Hsub. unfold w1. by rewrite setPath_other.
  - assert (Hpath : exists pre,
              environ w1 !! "PATH"
              = Some (pre +:+ ListSeparator +:+ Getenv w "PATH")).
    { unfold w1, setPath.
      destruct (os_Executable o) as [b [e|]]; simpl.
      - exists (Dir b +:+ "/bin/").
        rewrite lookup_insert_eq. by rewrite append_assoc.
      - exists (Dir (os_Args0 o)). by rewrite lookup_insert_eq. }
    destruct Hpath as [pre Hpre]. exists pre. by apply Hsub.
  - intros Hempty. rewrite <- Hhome in Hempty.
    unfold givenEnv. rewrite Hcmd. unfold setHome.
    case_decide; [|done]. simpl. by rewrite last_snoc.
Qed.

(** ** What the caller gets *)

(** X8: the not-found error of the library never gets out.  The error that
    a call returns once it has got to the select is never an [*exec.Error]
    whose [Err] is [exec.ErrNotFound]: that one is always replaced by
    [ErrNotFound]. *)
Theorem Run_hides_exec_not_found (c : RealCmd) (o : Oracle) (w : OS) :
  reachesSelect c o ->
  isExecNotFound (Run c o w).1.2 = false.
Proof.
  intros Hr. unfold reachesSelect in Hr; cbv zeta in Hr.
  pose proof (Run_result TrimSpace Dir ListSeparator c o w) as Hres.
  cbv zeta in Hres. rewrite Hres. clear Hres.
  set (r0 := outcome _ _ _ _).
  assert (Hsel : isExecNotFound
            (match selected o with
             | TimerFires (Some _) => ("", Some ErrKillProcessAfterTimeout)
             | TimerFires None => ("", Some ErrTimeout)
             | TimerFiresEarly => ("", None)
             | ResultArrives =>
                 if isExecNotFound (err r0) then ("", Some ErrNotFound)
                 else (output r0, err r0)
             end).2 = false).
  { destruct (selected o) as [[e|]| |]; [done | done | done |].
    by destruct (isExecNotFound (err r0)) eqn:Hnf. }
  case_decide as Hf; [done|].
  destruct Hr as [Hr|Hr]; [done|]. by rewrite Hr.
Qed.

(** X9: output means completion.  When a call returns an output that is not
    empty, the outcome arrived before the timer: the call received an
    outcome [r] whose error is not the not-found error of the library, and
    returned the output and the error of [r] as they are.  So a timeout, a
    program not found and a file not created never come with output. *)
Theorem Run_output_means_completion (c : RealCmd) (o : Oracle) (w : OS) :
  (Run c o w).1.1 ≠ "" ->
  selected o = ResultArrives /\
  exists r, EvRecv r ∈ performed c o w /\
            (Run c o w).1 = (output r, err r) /\
            isExecNotFound (err r) = false.
Proof.
  pose proof (Run_result TrimSpace Dir ListSeparator c o w) as Hres.
  pose proof (performed_shape TrimSpace Dir ListSeparator c o w) as Hs.
  cbv zeta in Hres, Hs. rewrite Hres, Hs. clear Hres Hs.
  set (r0 := outcome _ _ _ _).
  case_decide as Hf.
  - destruct (selected o) as [[e|]| |]; [done | done | done |].
    destruct (isExecNotFound (err r0)) eqn:Hnf; [done|].
    intros _. split; [done|]. exists r0. split; [in_log | done].
  - destruct (os_Create o _) as [e|]; [done|].
    destruct (selected o) as [[e|]| |]; [done | done | done |].
    destruct (isExecNotFound (err r0)) eqn:Hnf; [done|].
    intros _. split; [done|]. exists r0. split; [in_log | done].
Qed.

End More.

(** ** The commands of the package *)

(** X12: a command built by [Make] runs the program it was built for,
    under the default timeout.  In every state [p] of the package, the
    command that [Make] builds for [prog] and [argv] is in the heap, and any
    call of [Run] on it starts only the program [prog], with a prefix of
    [argv] as arguments, and arms no timer but one of the duration that
    [DefaultTimeout] holds in [p]; it arms that timer whenever it gets past
    the file creation. *)
Theorem made_command_runs_under_default (TrimSpace Dir : string -> string)
    (ListSeparator : string) (p : Package) (f : RealCmdFactory)
    (prog : string) (argv : list string) :
  exists c,
    heap (Make f prog argv p).2 !! (Make f prog argv p).1 = Some c /\
    forall o w,
      (forall cmd env,
         EvExec cmd env ∈ performed TrimSpace Dir ListSeparator c o w ->
         Name cmd = prog /\ Arg cmd `prefix_of` argv) /\
      (forall d,
         EvAfter d ∈ performed TrimSpace Dir ListSeparator c o w ->
         d = DefaultTimeout p) /\
      (reachesSelect TrimSpace c o ->
         EvAfter (DefaultTimeout p)
           ∈ performed TrimSpace Dir ListSeparator c o w).
Proof.
  exists {| Timeout := DefaultTimeout p; name := prog; args := argv |}.
  split.
  - unfold Make, RealCmdFactory_Make, NewRealCmd. simpl.
    by rewrite lookup_app_r, Nat.sub_diag.
  - intros o w. split; [|split].
    + intros cmd env Hin.
      destruct (started_program_of_command TrimSpace Dir ListSeparator _ o w cmd env Hin)
        as (Hn & Ha). done.
    + intros d Hin. by apply performed_after in Hin.
    + intros Hr.
      by apply (timer_armed TrimSpace Dir ListSeparator
                  {| Timeout := DefaultTimeout p; name := prog; args := argv |}).
Qed.

(** ** The further theorems at work on the sample agent *)

(** After a timed-out "echo hi '> /tmp/out.txt'" the environment is the one
    the agent had. *)
Lemma Run_frames_environment_witness :
  environ (Sample.run Sample.echoTo Sample.stuck Sample.agentEnv).2
    = environ Sample.agentEnv.
Proof.
  apply (proj2 (Run_frames_environment Sample.asciiTrimSpace Sample.slashDir ":"
                  Sample.echoTo Sample.stuck Sample.agentEnv) "/usr/bin").
  reflexivity.
Defined.

(** An agent with an empty environment has PATH, empty, after "echo
    hello". *)
Lemma Run_leaves_PATH_set_witness :
  environ (Sample.run Sample.echo Sample.quiet
             {| environ := ∅; events := [] |}).2
    = <["PATH" := ""]> (∅ : gmap string string) /\
  environ (Sample.run Sample.echo Sample.quiet
             {| environ := ∅; events := [] |}).2
    ≠ (∅ : gmap string string).
Proof.
  apply (proj2 (Run_leaves_PATH_set Sample.asciiTrimSpace Sample.slashDir ":"
                  Sample.echo Sample.quiet {| environ := ∅; events := [] |})).
  reflexivity.
Defined.

(** The file of a redirected program that times out is closed. *)
Lemma Run_closes_its_file_witness :
  last (Sample.did Sample.echoTo Sample.stuck Sample.agentEnv)
    = Some (EvClose "/tmp/out.txt").
Proof.
  apply (proj1 (Run_closes_its_file Sample.asciiTrimSpace Sample.slashDir ":"
                  Sample.echoTo Sample.stuck Sample.agentEnv)).
  vm_compute. apply list_elem_of_here.
Defined.

(** The program of "echo hi '> /tmp/out.txt'" gets "hi" alone. *)
Lemma programs_get_no_marker_witness :
  "echo" = name Sample.echoTo /\
  ["hi"] `prefix_of` args Sample.echoTo /\
  (forall a, a ∈ ["hi"] -> HasPrefix a ">" = false).
Proof.
  apply (programs_get_no_marker Sample.asciiTrimSpace Sample.slashDir ":"
           Sample.echoTo Sample.quiet Sample.agentEnv
           {| Name := "echo"; Arg := ["hi"];
              Env := Some ["PATH=.:/usr/bin"; "HOME=/root"];
              Stdout := Some "/tmp/out.txt" |}
           ["PATH=.:/usr/bin"; "HOME=/root"]).
  vm_compute. do 3 apply list_elem_of_further. apply list_elem_of_here.
Defined.

(** "echo hi '>>log' more": the file is the one named ">log". *)
Lemma target_is_rest_of_marker_witness :
  scanArgs Sample.asciiTrimSpace ["hi"; ">>log"; "more"] [] ""
    = (["hi"], ">log").
Proof.
  apply (target_is_rest_of_marker Sample.asciiTrimSpace Sample.slashDir ":"
           {| Timeout := 60 * time.Second; name := "echo";
              args := ["hi"; ">>log"; "more"] |}
           Sample.quiet Sample.agentEnv ["hi"] ["more"] ">log").
  - reflexivity.
  - intros a Ha. apply list_elem_of_singleton in Ha. rewrite Ha. reflexivity.
Defined.

(** A program that is not on the search path. *)
Lemma Run_hides_exec_not_found_witness :
  isExecNotFound
    (Sample.run Sample.nonexistent Sample.absent Sample.agentEnv).1.2 = false.
Proof.
  apply (Run_hides_exec_not_found Sample.asciiTrimSpace Sample.slashDir ":"
           Sample.nonexistent Sample.absent Sample.agentEnv).
  left. reflexivity.
Defined.

(** "echo hello" returns output, so its outcome arrived. *)
Lemma Run_output_means_completion_witness :
  selected Sample.quiet = ResultArrives /\
  exists r, EvRecv r ∈ Sample.did Sample.echo Sample.quiet Sample.agentEnv /\
            (Sample.run Sample.echo Sample.quiet Sample.agentEnv).1
              = (output r, err r) /\
            isExecNotFound (err r) = false.
Proof.
  apply (Run_output_means_completion Sample.asciiTrimSpace Sample.slashDir ":"
           Sample.echo Sample.quiet Sample.agentEnv).
  vm_compute. discriminate.
Defined.

(** The program of "echo hello" has a PATH that ends with the PATH of the
    agent. *)
Lemma program_inherits_environment_witness :
  exists pre,
    ("PATH" +:+ "=" +:+ (pre +:+ ":" +:+ "/usr/bin"))
      ∈ ["PATH=.:/usr/bin"; "HOME=/root"].
Proof.
  apply (proj2 (program_inherits_environment
                  Sample.asciiTrimSpace Sample.slashDir ":"
                  Sample.echo Sample.quiet Sample.agentEnv
                  {| Name := "echo"; Arg := ["hello"];
                     Env := Some ["PATH=.:/usr/bin"; "HOME=/root"];
                     Stdout := None |}
                  ["PATH=.:/usr/bin"; "HOME=/root"]
                  ltac:(vm_compute; do 2 apply list_elem_of_further;
                        apply list_elem_of_here))).
Defined.

(** The first command built once a client has set the default to one
    second. *)
Lemma made_command_runs_under_default_witness :
  exists c,
    heap (Make mkRealCmdFactory "echo" ["hello"]
            (setDefaultTimeout time.Second init)).2 !! 0%nat = Some c /\
    forall o w,
      (forall cmd env,
         EvExec cmd env ∈ Sample.did c o w ->
         Name cmd = "echo" /\ Arg cmd `prefix_of` ["hello"]) /\
      (forall d, EvAfter d ∈ Sample.did c o w -> d = 1000000000) /\
      (reachesSelect Sample.asciiTrimSpace c o ->
         EvAfter 1000000000 ∈ Sample.did c o w).
Proof.
  apply (made_command_runs_under_default Sample.asciiTrimSpace Sample.slashDir
           ":" (setDefaultTimeout time.Second init) mkRealCmdFactory
           "echo" ["hello"]).
Defined.

(** ** The file comes first *)

(** X13: the file is created before anything is known of the program.
    When the scanned file name [f] is not empty, the first thing a call
    does is to create [f]; in particular, when [f] is created, the outcome
    arrives and the program turns out not to exist, the call returns the
    empty string and [ErrNotFound] although it has created (and closed)
    [f]. *)
Theorem Run_creates_file_first (TrimSpace Dir : string -> string)
    (ListSeparator : string) (c : RealCmd) (o : Oracle) (w : OS) :
  let f := (scanArgs TrimSpace (args c) [] "").2 in
  f ≠ "" ->
  head (performed TrimSpace Dir ListSeparator c o w)
    = Some (EvCreate f (os_Create o f)) /\
  (os_Create o f = None ->
   selected o = ResultArrives ->
   (forall cmd env, isExecNotFound (cmd_Run o cmd env) = true) ->
   (Run TrimSpace Dir ListSeparator c o w).1 = ("", Some ErrNotFound) /\
   EvCreate f None ∈ performed TrimSpace Dir ListSeparator c o w /\
   EvClose f ∈ performed TrimSpace Dir ListSeparator c o w).
Proof.
  intros f Hf. subst f.
  pose proof (Run_result TrimSpace Dir ListSeparator c o w) as Hres.
  pose proof (performed_shape TrimSpace Dir ListSeparator c o w) as Hs.
  cbv zeta in Hres, Hs. rewrite Hres, Hs. clear Hres Hs.
  case_decide; [done|]. split.
  - by destruct (os_Create o _).
  - intros Hc Hsel Hnf. rewrite Hc, Hsel.
    unfold outcome. case_decide; [done|]. simpl. rewrite Hnf.
    split; [done|]. split.
    + apply list_elem_of_here.
    + do 6 apply list_elem_of_further. apply list_elem_of_here.
Qed.

(** "nonexistent-binary-xyz '> /tmp/out.txt'": not found, and the file is
    there. *)
Lemma Run_creates_file_first_witness :
  (Sample.run {| Timeout := 60 * time.Second; name := "nonexistent-binary-xyz";
                 args := ["> /tmp/out.txt"] |}
      Sample.absent Sample.agentEnv).1 = ("", Some ErrNotFound) /\
  EvCreate "/tmp/out.txt" None
    ∈ Sample.did {| Timeout := 60 * time.Second;
                    name := "nonexistent-binary-xyz";
                    args := ["> /tmp/out.txt"] |}
        Sample.absent Sample.agentEnv /\
  EvClose "/tmp/out.txt"
    ∈ Sample.did {| Timeout := 60 * time.Second;
                    name := "nonexistent-binary-xyz";
                    args := ["> /tmp/out.txt"] |}
        Sample.absent Sample.agentEnv.
Proof.
  apply (proj2 (Run_creates_file_first Sample.asciiTrimSpace Sample.slashDir ":"
                  {| Timeout := 60 * time.Second;
                     name := "nonexistent-binary-xyz";
                     args := ["> /tmp/out.txt"] |}
                  Sample.absent Sample.agentEnv
                  ltac:(vm_compute; discriminate)));
    [reflexivity | reflexivity | intros cmd env; reflexivity].
Defined.
